(** * SequentialTask.py: tasks for sequential learning

    A shallow embedding of [SequentialTask] and [FunctionApproximationTask]
    (src/SequentialTask.py) together with the parts of their collaborators
    the two classes drive: the NumPy global random source, the [tf.data]
    pipeline stages [from_generator], [batch] and [repeat], and the Keras
    [compile] / [fit] / [evaluate] protocol.

    Conventions.
    - Python [int]s the code computes with (batch counts, batch size,
      sample counts, the generator's counter) are [Z].
    - float64 scalars are exact rationals [Q]; what rounding changes is
      shown apart, on binary64 numbers, in [Binary64].
    - A tensor is the list of its components, of one dimension; the dtypes
      of the [output_signature] of [create_dataset] are the static type
      [Sample] of the stream elements, and its shape is [meets_signature].
    - A raised exception is the left injection of [result]. *)

From Stdlib Require Import String ZArith NArith QArith List Bool Lia Lqa.
From Stdlib Require PrimFloat.
Import ListNotations.
Open Scope Z_scope.

Set Implicit Arguments.

(** ** Values *)

Definition Tensor := list Q.
Definition Sample := (Tensor * Q)%type.
Definition Batch := list Sample.

Inductive Error :=
| InvalidArgumentError   (* tf.errors.InvalidArgumentError *)
| OutOfRangeError        (* tf.errors.OutOfRangeError: an exhausted iterator *)
| ValueError
| RuntimeError.

Definition result (A : Type) := (Error + A)%type.

(** ** The NumPy global random source

    [np.random] keeps one global bit generator.  Its output is modelled as a
    tape of raw words and a read position; [random_sample] takes the next
    word, keeps 53 bits and scales them into the unit interval, as NumPy's
    [random_sample] does.  Every draw of the program goes through this one
    state, whichever stream asks for it. *)

Record Rng := { tape : nat -> N; pos : nat }.

Definition advance (g : Rng) : Rng := {| tape := tape g; pos := S (pos g) |}.

Definition unit_of_raw (r : N) : Q :=
  Qmake (Z.of_N (r mod 9007199254740992)) 9007199254740992.

Definition random_sample (g : Rng) : Q * Rng :=
  (unit_of_raw (tape g (pos g)), advance g).

Fixpoint random_samples (size : nat) (g : Rng) : list Q * Rng :=
  match size with
  | O => ([], g)
  | S k => let (u, g1) := random_sample g in
           let (us, g2) := random_samples k g1 in
           (u :: us, g2)
  end.

(** [np.random.uniform(low, high, size)] is
    [low + (high - low) * random_sample(size)]. *)
Definition uniform (low high : Q) (size : nat) (g : Rng) : Tensor * Rng :=
  let (us, g') := random_samples size g in
  (map (fun u => low + (high - low) * u)%Q us, g').

(** ** Python generators and tf.data streams *)

(** A generator object: its frame, and what resuming it does.  [None] is
    [StopIteration]. *)
Record Generator (A : Type) := {
  gen_state : Type;
  gen_start : gen_state;
  gen_resume : gen_state -> Rng -> option A * gen_state * Rng
}.

Inductive Cardinality := Unknown | Infinite | Finite (n : nat).

(** A [tf.data.Dataset] is re-iterable: each [iter] starts a new iterator at
    [it_init]; [it_next] is [get_next], [None] meaning end of sequence. *)
Record Dataset (A : Type) := {
  it_state : Type;
  it_init : it_state;
  it_next : it_state -> Rng -> option A * it_state * Rng;
  cardinality : Cardinality
}.

(** Pull at most [n] elements, stopping at the first end of sequence. *)
Fixpoint ds_take {A} (d : Dataset A) (n : nat) (s : it_state d) (g : Rng)
  : list A * it_state d * Rng :=
  match n with
  | O => ([], s, g)
  | S k =>
      match it_next d s g with
      | (Some a, s1, g1) =>
          let '(l, s2, g2) := ds_take d k s1 g1 in (a :: l, s2, g2)
      | (None, s1, g1) => ([], s1, g1)
      end
  end.

(** [Dataset.from_generator(gen, args)]: every new iterator calls the
    generator function again. *)
Definition from_generator {A} (gen : Generator A) : Dataset A :=
  {| it_state := gen_state gen;
     it_init := gen_start gen;
     it_next := gen_resume gen;
     cardinality := Unknown |}.

(** A dataset over values held in memory (as [from_tensor_slices] gives). *)
Definition from_list {A} (l : list A) : Dataset A :=
  {| it_state := list A;
     it_init := l;
     it_next := fun s g => match s with
                           | [] => (None, [], g)
                           | a :: r => (Some a, r, g)
                           end;
     cardinality := Finite (length l) |}.

(** [Dataset.batch(batch_size)], [drop_remainder=False]: consecutive
    elements are grouped, a shorter last group is kept, and the stage
    rejects a batch size that is not positive when it is built. *)
Definition batch_next {A} (d : Dataset A) (k : nat) (s : it_state d) (g : Rng)
  : option (list A) * it_state d * Rng :=
  let '(l, s1, g1) := ds_take d k s g in
  (match l with [] => None | _ => Some l end, s1, g1).

Definition batch_cardinality (c : Cardinality) (k : nat) : Cardinality :=
  match c with
  | Finite n => Finite ((n + k - 1) / k)%nat
  | _ => c
  end.

Definition batched {A} (k : nat) (d : Dataset A) : Dataset (list A) :=
  {| it_state := it_state d;
     it_init := it_init d;
     it_next := batch_next d k;
     cardinality := batch_cardinality (cardinality d) k |}.

Definition batch {A} (batch_size : Z) (d : Dataset A) : result (Dataset (list A)) :=
  if batch_size <=? 0 then inl InvalidArgumentError
  else inr (batched (Z.to_nat batch_size) d).

(** [Dataset.repeat()]: when the input ends, a new iterator over the input
    is made.  If the input ends on the first call after it was (re)started,
    the repetition ends instead of spinning on an empty input. *)
Definition repeat_next {A} (d : Dataset A) (s : it_state d * bool) (g : Rng)
  : option A * (it_state d * bool) * Rng :=
  let (s0, first_call) := s in
  match it_next d s0 g with
  | (Some a, s1, g1) => (Some a, (s1, false), g1)
  | (None, _, g1) =>
      if first_call then (None, (it_init d, true), g1)
      else match it_next d (it_init d) g1 with
           | (Some a, s2, g2) => (Some a, (s2, false), g2)
           | (None, _, g2) => (None, (it_init d, true), g2)
           end
  end.

Definition repeat {A} (d : Dataset A) : Dataset A :=
  {| it_state := (it_state d * bool)%type;
     it_init := (it_init d, true);
     it_next := repeat_next d;
     cardinality := match cardinality d with
                    | Finite O => Finite O
                    | _ => Infinite
                    end |}.

(** ** The Keras model collaborator

    The numerical core of a model (its parameters, its forward pass and the
    update its optimizer performs on one batch) is an interface; the
    [compile] / [evaluate] / [fit] protocol around it is written out. *)

(** A loss or metric: a named function of (target, prediction). *)
Record Loss := { loss_name : string; loss_fn : Q -> Q -> Q }.

Class Backend := {
  Weights : Type;
  OptState : Type;
  predict : Weights -> Tensor -> Q;
  opt_init : string -> OptState;
  opt_step : Loss -> Weights * OptState -> Batch -> Weights * OptState
}.

Definition Logs := list (string * Q).
Definition History := list Logs.

(** A callback, as far as [fit] depends on it: its epoch-end hook, which
    answers whether it asks the model to stop training. *)
Definition Callback := Z -> Logs -> bool.

Section Keras.
Context {B : Backend}.

(** What [Model.compile] installs. *)
Record Compiled := {
  optimizer : string;
  opt_state : OptState;
  loss : Loss;
  metrics : list Loss;
  run_eagerly : bool
}.

Record Model := {
  model_name : string;
  weights : Weights;
  compiled : option Compiled
}.

(** [model.compile(optimizer, loss, metrics, run_eagerly)]: a new optimizer
    is made from its name; the parameters are not touched. *)
Definition keras_compile (m : Model) (opt : string) (l : Loss)
    (ms : list Loss) (eager : bool) : Model :=
  {| model_name := model_name m;
     weights := weights m;
     compiled := Some {| optimizer := opt;
                         opt_state := opt_init opt;
                         loss := l;
                         metrics := ms;
                         run_eagerly := eager |} |}.

(** Sum of a loss over the samples of a batch, at parameters [w]. *)
Definition batch_total (l : Loss) (w : Weights) (b : Batch) : Q :=
  fold_right (fun (xy : Sample) acc => loss_fn l (snd xy) (predict w (fst xy)) + acc)%Q 0%Q b.

(** A run of steps: the parameters each batch was seen at, and the batch. *)
Definition Trace := list (Weights * Batch).

Definition trace_total (l : Loss) (tr : Trace) : Q :=
  fold_right (fun wb acc => batch_total l (fst wb) (snd wb) + acc)%Q 0%Q tr.

Definition trace_count (tr : Trace) : Z :=
  fold_right (fun wb acc => Z.of_nat (length (snd wb)) + acc) 0 tr.

(** The state of a mean metric after the steps of [tr]. *)
Definition metric_result (l : Loss) (tr : Trace) : Q :=
  (trace_total l tr / inject_Z (trace_count tr))%Q.

(** The logs of a run: the loss, then each compiled metric by name. *)
Definition logs_of (c : Compiled) (tr : Trace) : Logs :=
  ("loss"%string, metric_result (loss c) tr)
    :: map (fun m => (loss_name m, metric_result m tr)) (metrics c).

(** The test loop: a new iterator over the data, at most [steps] batches,
    ended early when the data runs out (Keras logs a warning and goes on).
    The logs stay empty when no step ran.  The model is not changed. *)
Definition test_loop (c : Compiled) (w : Weights) (d : Dataset Batch)
    (steps : Z) (g : Rng) : Logs * Rng :=
  let '(bs, _, g1) := ds_take d (Z.to_nat steps) (it_init d) g in
  (match bs with
   | [] => []
   | _ => logs_of c (map (fun b => (w, b)) bs)
   end, g1).

(** [model.evaluate(x, steps, return_dict=True)]. *)
Definition keras_evaluate (m : Model) (d : Dataset Batch) (steps : Z) (g : Rng)
  : result Logs * Rng :=
  match compiled m with
  | None => (inl RuntimeError, g)
  | Some c => let (lg, g1) := test_loop c (weights m) d steps g in (inr lg, g1)
  end.

(** The steps of one training epoch, on the iterator [fit] holds: each
    batch updates the metrics at the current parameters and then the
    parameters.  The flag tells that the data ran out before [n] steps. *)
Fixpoint train_steps (l : Loss) (d : Dataset Batch) (n : nat)
    (s : it_state d) (wo : Weights * OptState) (g : Rng)
  : Trace * it_state d * (Weights * OptState) * bool * Rng :=
  match n with
  | O => ([], s, wo, false, g)
  | S k =>
      match it_next d s g with
      | (Some b, s1, g1) =>
          let '(tr, s2, wo2, out, g2) :=
            train_steps l d k s1 (opt_step l wo b) g1 in
          ((fst wo, b) :: tr, s2, wo2, out, g2)
      | (None, s1, g1) => ([], s1, wo, true, g1)
      end
  end.

(** The data handler makes a new training iterator for an epoch only when
    the data's cardinality is known and equals [steps_per_epoch]. *)
Definition should_recreate_iterator (d : Dataset Batch) (steps : Z) : bool :=
  match cardinality d with
  | Finite n => Z.of_nat n =? steps
  | _ => false
  end.

Definition val_prefix (lg : Logs) : Logs :=
  map (fun kv => (("val_" ++ fst kv)%string, snd kv)) lg.

(** The epoch loop of [fit].  [has_logs] tells whether some training step
    has produced logs so far; an epoch ending without any raises the
    "empty logs" ValueError.  After the epoch in which the data ran out, or
    in which a callback asked to stop, no further epoch is run. *)
Fixpoint fit_epochs (c : Compiled) (d : Dataset Batch) (steps : Z)
    (vd : option (Dataset Batch)) (vsteps : Z) (callbacks : list Callback)
    (remaining : nat) (epoch : Z) (s : it_state d)
    (wo : Weights * OptState) (has_logs : bool) (g : Rng)
  : result History * (Weights * OptState) * Rng :=
  match remaining with
  | O => (inr [], wo, g)
  | S r =>
      let s0 := if should_recreate_iterator d steps then it_init d else s in
      let '(tr, s1, wo1, out, g1) :=
        train_steps (loss c) d (Z.to_nat steps) s0 wo g in
      match tr, has_logs with
      | [], false => (inl ValueError, wo1, g1)
      | _, _ =>
          let (val_logs, g2) :=
            match vd with
            | None => ([], g1)
            | Some v =>
                let (lg, g') := test_loop c (fst wo1) v vsteps g1 in
                (val_prefix lg, g')
            end in
          let epoch_logs := (logs_of c tr ++ val_logs)%list in
          let stop := existsb (fun cb => cb epoch epoch_logs) callbacks in
          if stop || out then (inr [epoch_logs], wo1, g2)
          else
            let '(res, wo2, g3) :=
              fit_epochs c d steps vd vsteps callbacks r (epoch + 1) s1 wo1 true g2 in
            (match res with
             | inl e => inl e
             | inr h => inr (epoch_logs :: h)
             end, wo2, g3)
      end
  end.

(** [model.fit(x, epochs, steps_per_epoch, validation_data,
    validation_steps, callbacks)]: returns the history and the trained
    model. *)
Definition keras_fit (m : Model) (d : Dataset Batch) (epochs steps : Z)
    (vd : option (Dataset Batch)) (vsteps : Z) (callbacks : list Callback)
    (g : Rng) : result History * Model * Rng :=
  match compiled m with
  | None => (inl RuntimeError, m, g)
  | Some c =>
      let '(res, wo, g1) :=
        fit_epochs c d steps vd vsteps callbacks (Z.to_nat epochs) 0
                   (it_init d) (weights m, opt_state c) false g in
      (res,
       {| model_name := model_name m;
          weights := fst wo;
          compiled := Some {| optimizer := optimizer c;
                              opt_state := snd wo;
                              loss := loss c;
                              metrics := metrics c;
                              run_eagerly := run_eagerly c |} |},
       g1)
  end.

End Keras.

(** ** class SequentialTask *)

Section Tasks.
Context {B : Backend}.

Record SequentialTask := {
  name : string;
  model : Model;
  model_base_loss : Loss;
  training_dataset : Dataset Batch;
  training_batches : Z;
  validation_dataset : option (Dataset Batch);
  validation_batches : Z;
  batch_size : Z;
  input_data_fn : option (Tensor -> Tensor);
  data_fn : option (Tensor -> Q);
  x_lim : option (Q * Q);
  y_lim : option (Q * Q)
}.

(** The one assignment the methods make reaches the model object behind
    [self.model]; [with_model] is [self] with that object in its new state. *)
Definition with_model (self : SequentialTask) (m : Model) : SequentialTask :=
  {| name := name self;
     model := m;
     model_base_loss := model_base_loss self;
     training_dataset := training_dataset self;
     training_batches := training_batches self;
     validation_dataset := validation_dataset self;
     validation_batches := validation_batches self;
     batch_size := batch_size self;
     input_data_fn := input_data_fn self;
     data_fn := data_fn self;
     x_lim := x_lim self;
     y_lim := y_lim self |}.

(** [compile_model(self, loss_fn)] *)
Definition compile_model (self : SequentialTask) (loss_fn : Loss) : SequentialTask :=
  with_model self
    (keras_compile (model self) "ADAM" loss_fn [model_base_loss self] false).

(** [__init__]: the twelve attributes are stored, then the model is
    compiled with the base loss. *)
Definition SequentialTask_init (name : string) (model : Model)
    (model_base_loss : Loss) (training_dataset : Dataset Batch)
    (training_batches : Z) (validation_dataset : option (Dataset Batch))
    (validation_batches : Z) (batch_size : Z)
    (input_data_fn : option (Tensor -> Tensor)) (data_fn : option (Tensor -> Q))
    (x_lim y_lim : option (Q * Q)) : SequentialTask :=
  compile_model
    {| name := name;
       model := model;
       model_base_loss := model_base_loss;
       training_dataset := training_dataset;
       training_batches := training_batches;
       validation_dataset := validation_dataset;
       validation_batches := validation_batches;
       batch_size := batch_size;
       input_data_fn := input_data_fn;
       data_fn := data_fn;
       x_lim := x_lim;
       y_lim := y_lim |}
    model_base_loss.

(** [train_on_task(self, epochs, callbacks)] *)
Definition train_on_task (self : SequentialTask) (epochs : Z)
    (callbacks : list Callback) (g : Rng)
  : result History * SequentialTask * Rng :=
  let '(h, m, g1) :=
    keras_fit (model self) (training_dataset self) epochs
              (training_batches self) (validation_dataset self)
              (validation_batches self) callbacks g in
  (h, with_model self m, g1).

(** [evaluate_model(self)]; the line it prints is not modelled. *)
Definition evaluate_model (self : SequentialTask) (g : Rng)
  : result Logs * SequentialTask * Rng :=
  match validation_dataset self with
  | None => (inr [], self, g)
  | Some v =>
      let (r, g1) := keras_evaluate (model self) v (validation_batches self) g in
      (r, self, g1)
  end.

(** ** class FunctionApproximationTask(SequentialTask) *)

(** [data_generator(self, max_samples)].  The frame holds the counter [i].
    [self.x_lim], [self.independent_variables], [self.data_fn] and
    [self.input_data_fn] are read when the generator runs; no method
    reassigns them, so they are the values the constructor stored. *)
Definition data_generator (x_lim : Q * Q) (independent_variables : nat)
    (input_data_fn : Tensor -> Tensor) (data_fn : Tensor -> Q)
    (max_samples : Z) : Generator Sample :=
  {| gen_state := Z;
     gen_start := 0;
     gen_resume := fun i g =>
       if i <? max_samples then
         let (x, g1) := uniform (fst x_lim) (snd x_lim) independent_variables g in
         let y := data_fn x in
         (Some (input_data_fn x, y), i + 1, g1)
       else (None, i, g) |}.

(** The shape of a tensor of this model, and what the [output_signature]
    of [create_dataset] asks of [input_data_fn]: on every vector of
    [independent_variables] components its result has the declared
    [model_input_shape].  (The target is a scalar by its type.) *)
Definition tensor_shape (x : Tensor) : list Z := [Z.of_nat (length x)].

Definition meets_signature (model_input_shape : list Z)
    (independent_variables : nat) (input_data_fn : Tensor -> Tensor) : Prop :=
  forall x, length x = independent_variables ->
            tensor_shape (input_data_fn x) = model_input_shape.

(** [create_dataset(self, max_samples)], with [self.model_input_shape] and
    [self.batch_size] as they are when the constructor calls it.  The
    stream [from_generator] makes raises at the first element that does not
    have the shape of its [output_signature]; an iterator of this model
    does not raise, so what is proved of the elements of the stream is
    proved under [meets_signature], where the real stream raises nothing
    on that account. *)
Definition create_dataset (model_input_shape : list Z)
    (x_lim : Q * Q) (independent_variables : nat)
    (input_data_fn : Tensor -> Tensor) (data_fn : Tensor -> Q)
    (batch_size : Z) (max_samples : Z) : result (Dataset Batch) :=
  match batch batch_size
          (from_generator
             (data_generator x_lim independent_variables input_data_fn data_fn
                             max_samples)) with
  | inl e => inl e
  | inr d => inr (repeat d)
  end.

(** The attributes the subclass adds.  [batch_size] is an attribute of the
    same object as in the base class, so it lives in [base]. *)
Record FunctionApproximationTask := {
  base : SequentialTask;
  model_input_shape : list Z;
  independent_variables : nat;
  training_samples : Z;
  validation_samples : Z
}.

Definition default_validation_batches : Z := 0.
Definition default_x_lim : Q * Q := ((-1)%Q, 1%Q).

(** [__init__].  Lines 200-205 set the subclass attributes; the two
    datasets are built while the arguments of [super().__init__] are
    evaluated, training first; [super().__init__] then stores its twelve
    attributes.  It is not handed [batch_size], so it stores its own
    default [0] over the value line 202 had set.  [y_lim] is what
    [**kwargs] can carry. *)
Definition FunctionApproximationTask_init (name : string) (model : Model)
    (model_base_loss : Loss) (independent_variables : nat)
    (model_input_shape : list Z)
    (input_data_fn : Tensor -> Tensor) (data_fn : Tensor -> Q)
    (training_batches validation_batches batch_size : Z)
    (x_lim : Q * Q) (y_lim : option (Q * Q))
  : result FunctionApproximationTask :=
  match create_dataset model_input_shape x_lim independent_variables
                       input_data_fn data_fn
                       batch_size (training_batches * batch_size) with
  | inl e => inl e
  | inr training =>
      match create_dataset model_input_shape x_lim independent_variables
                           input_data_fn data_fn
                           batch_size (validation_batches * batch_size) with
      | inl e => inl e
      | inr validation =>
          inr {| base :=
                   SequentialTask_init name model model_base_loss
                     training training_batches
                     (Some validation) validation_batches
                     0
                     (Some input_data_fn) (Some data_fn)
                     (Some x_lim) y_lim;
                 model_input_shape := model_input_shape;
                 independent_variables := independent_variables;
                 training_samples := training_batches * batch_size;
                 validation_samples := validation_batches * batch_size |}
      end
  end.

(** The subclass overrides no method: [compile_model], [train_on_task] and
    [evaluate_model] called on it are the base class's, run on the same
    object. *)
Definition with_base (self : FunctionApproximationTask) (b : SequentialTask)
  : FunctionApproximationTask :=
  {| base := b;
     model_input_shape := model_input_shape self;
     independent_variables := independent_variables self;
     training_samples := training_samples self;
     validation_samples := validation_samples self |}.

Definition fa_compile_model (self : FunctionApproximationTask) (loss_fn : Loss)
  : FunctionApproximationTask :=
  with_base self (compile_model (base self) loss_fn).

Definition fa_train_on_task (self : FunctionApproximationTask) (epochs : Z)
    (callbacks : list Callback) (g : Rng)
  : result History * FunctionApproximationTask * Rng :=
  let '(h, b, g1) := train_on_task (base self) epochs callbacks g in
  (h, with_base self b, g1).

Definition fa_evaluate_model (self : FunctionApproximationTask) (g : Rng)
  : result Logs * FunctionApproximationTask * Rng :=
  let '(r, b, g1) := evaluate_model (base self) g in
  (r, with_base self b, g1).

End Tasks.

(** ** Running a generator to completion

    [list(gen)] with a bound on the number of resumptions; the flag tells
    that [StopIteration] was reached within the bound. *)
Fixpoint gen_run {A} (gen : Generator A) (fuel : nat) (s : gen_state gen)
    (g : Rng) : list A * bool * Rng :=
  match fuel with
  | O => ([], false, g)
  | S f =>
      match gen_resume gen s g with
      | (Some a, s1, g1) =>
          let '(l, done, g2) := gen_run gen f s1 g1 in (a :: l, done, g2)
      | (None, _, g1) => ([], true, g1)
      end
  end.

(** ** What the random source holds in store

    The random source [k] draws further on, the vector read off the tape
    at a position, and the samples and batches a run of the generator makes
    of the vectors that follow each other on the tape. *)

Definition skip (g : Rng) (k : nat) : Rng :=
  {| tape := tape g; pos := (pos g + k)%nat |}.

Definition vector_at (x_lim : Q * Q) (n : nat) (g : Rng) (p : nat) : Tensor :=
  map (fun j => fst x_lim + (snd x_lim - fst x_lim) * unit_of_raw (tape g j))%Q
      (seq p n).

Definition fresh_vectors (x_lim : Q * Q) (n : nat) (g : Rng) (count : nat)
  : list Tensor :=
  map (fun i => vector_at x_lim n g (pos g + i * n)%nat) (seq 0 count).

Definition fresh_samples (x_lim : Q * Q) (n : nat)
    (input_data_fn : Tensor -> Tensor) (data_fn : Tensor -> Q)
    (g : Rng) (count : nat) : list Sample :=
  map (fun x => (input_data_fn x, data_fn x)) (fresh_vectors x_lim n g count).

Definition fresh_batch (x_lim : Q * Q) (n : nat)
    (input_data_fn : Tensor -> Tensor) (data_fn : Tensor -> Q)
    (k : nat) (g : Rng) (j : nat) : Batch :=
  fresh_samples x_lim n input_data_fn data_fn (skip g (j * (k * n))) k.

Definition in_range (x_lim : Q * Q) (c : Q) : Prop :=
  (fst x_lim <= c /\ c < snd x_lim)%Q.



(** ** The same arithmetic on binary64 numbers

    NumPy evaluates [low + (high - low) * u] in float64, each operation
    rounded to nearest; [u] is a 53-bit integer over [2^53], which float64
    holds exactly. *)
Module Binary64.
Import PrimFloat.





End Binary64.





(** The states in which an iterator over the stream of [create_dataset]
    rests between two batches: the generator's counter is a whole number
    of batches into the pass, and a restarted pass has emitted nothing. *)
Definition stream_between_batches (max : Z) (k : nat) (s : Z * bool) : Prop :=
  0 <= fst s <= max /\ (exists q, fst s = q * Z.of_nat k)
  /\ (snd s = true -> fst s = 0).

(** The states in which an iterator over the stream rests between two
    passes: at its start, or at the end of a pass. *)
Definition stream_pass_boundary (max : Z) (s : Z * bool) : Prop :=
  s = (0, true) \/ s = (max, false).

(** The call did not end in the error of an exhausted iterator. *)
Definition no_out_of_range {A} (r : result A) : Prop :=
  r <> inl OutOfRangeError.

(** A stream that hands out batches of [k] samples however many are
    asked for. *)
Definition yields_batches_forever (d : Dataset Batch) (k : nat) : Prop :=
  forall (N : nat) (g : Rng),
    let bl := fst (fst (ds_take d N (it_init d) g)) in
    length bl = N /\ Forall (fun b => length b = k) bl.

(** ** A driver

    What the code around a task does with it: any sequence of calls of the
    three methods.  [run_calls] collects every record the calls return,
    the per-epoch records of each history and each evaluation mapping. *)

Section Driver.
Context {B : Backend}.

Inductive Call :=
| CompileCall (loss_fn : Loss)
| TrainCall (epochs : Z) (callbacks : list Callback)
| EvaluateCall.

Definition history_of (r : result History) : History :=
  match r with inr h => h | inl _ => [] end.

Definition logs_of_result (r : result Logs) : Logs :=
  match r with inr lg => lg | inl _ => [] end.

Definition run_call (c : Call) (t : SequentialTask) (g : Rng)
  : list Logs * SequentialTask * Rng :=
  match c with
  | CompileCall l => ([], compile_model t l, g)
  | TrainCall epochs callbacks =>
      let '(r, t1, g1) := train_on_task t epochs callbacks g in
      (history_of r, t1, g1)
  | EvaluateCall =>
      let '(r, t1, g1) := evaluate_model t g in
      ([logs_of_result r], t1, g1)
  end.

Fixpoint run_calls (cs : list Call) (t : SequentialTask) (g : Rng)
  : list Logs * SequentialTask * Rng :=
  match cs with
  | [] => ([], t, g)
  | c :: rest =>
      let '(recs, t1, g1) := run_call c t g in
      let '(recs', t2, g2) := run_calls rest t1 g1 in
      ((recs ++ recs')%list, t2, g2)
  end.

(** A record reports a metric when it has an entry under its name. *)
Definition reports (key : string) (rec : Logs) : Prop :=
  In key (map fst rec).

(** The model is compiled and tracks the task's base loss. *)
Definition tracks_base_loss (t : SequentialTask) : Prop :=
  exists c, compiled (model t) = Some c /\ metrics c = [model_base_loss t].

(** The stored attributes other than the model object. *)
Definition same_attributes (t t' : SequentialTask) : Prop :=
  name t' = name t
  /\ model_base_loss t' = model_base_loss t
  /\ training_dataset t' = training_dataset t
  /\ training_batches t' = training_batches t
  /\ validation_dataset t' = validation_dataset t
  /\ validation_batches t' = validation_batches t
  /\ batch_size t' = batch_size t
  /\ input_data_fn t' = input_data_fn t
  /\ data_fn t' = data_fn t
  /\ x_lim t' = x_lim t
  /\ y_lim t' = y_lim t.


End Driver.


(** ** Names and shapes of records

    The validation part of an epoch of [fit], as its epoch loop computes
    it, and the names under which a compiled model logs. *)

Section Records.
Context {B : Backend}.

Definition validation_logs (c : Compiled) (w : Weights)
    (vd : option (Dataset Batch)) (vsteps : Z) (g : Rng) : Logs * Rng :=
  match vd with
  | None => ([], g)
  | Some v =>
      let (lg, g') := test_loop c w v vsteps g in
      (val_prefix lg, g')
  end.

Definition metric_names (c : Compiled) : list string :=
  "loss"%string :: map loss_name (metrics c).

Definition validation_names (c : Compiled) : list string :=
  map (fun k => ("val_" ++ k)%string) (metric_names c).

End Records.

(** The batch sizes of one pass over [q * k + r] samples in batches of
    [k]: [q] full batches and the remainder. *)
Definition pass_sizes (k q r : nat) : list nat := (List.repeat k q ++ [r])%list.

(** ** A concrete setting

    A one-parameter linear model trained by a least-mean-squares step, the
    squared error, the target [2 x + 1] on [(-1, 1)], and a random source
    whose draws run through the eighths of the unit interval. *)

Module Demo.

#[local] Open Scope Q_scope.

Definition lms_step (wo : Q * unit) (b : Batch) : Q * unit :=
  let w := fst wo in
  (fold_right (fun (xy : Sample) acc =>
                 Qred (acc + (1 # 10) * (snd xy - acc * hd 0 (fst xy)) * hd 0 (fst xy)))
              w b, tt).

#[export] Instance linear : Backend :=
  {| Weights := Q;
     OptState := unit;
     predict := fun w x => Qred (w * hd 0 x);
     opt_init := fun _ => tt;
     opt_step := fun _ => lms_step |}.

Definition mse : Loss :=
  {| loss_name := "mean_squared_error";
     loss_fn := fun y p => Qred ((y - p) * (y - p)) |}.

(** The base loss plus a constant regularizer. *)
Definition regularized : Loss :=
  {| loss_name := "regularized";
     loss_fn := fun y p => loss_fn mse y p + 1 |}.

Definition fresh_model : Model :=
  {| model_name := "model"; weights := 0; compiled := None |}.

Definition target (x : Tensor) : Q := Qred (2 * hd 0 x + 1).
Definition identity (x : Tensor) : Tensor := x.

Definition eighths : Rng :=
  {| tape := fun i => (N.of_nat i * 1125899906842624)%N; pos := 0 |}.

(** Two batches held in memory. *)
Definition stored : list Batch :=
  [ [([1], 3); ([0], 1)]; [([1 # 2], 2); ([-1], -1)] ].

(** A function-approximation task as the constructor builds it. *)
Definition approximation (training_batches validation_batches batch_size : Z)
  : result FunctionApproximationTask :=
  FunctionApproximationTask_init "Task 1" fresh_model mse 1 [1%Z]
    identity target training_batches validation_batches batch_size
    default_x_lim None.

(** A task over the stored batches, told to expect three per epoch. *)
Definition short : SequentialTask :=
  SequentialTask_init "Task 2" fresh_model mse (from_list stored) 3
    None 0 0 None None None None.

(** A task over the stored batches, for training and for validation. *)
Definition exact : SequentialTask :=
  SequentialTask_init "Task 3" fresh_model mse (from_list stored) 2
    (Some (from_list stored)) 2 0 None None None None.

End Demo.

(** * Properties *)

(** ** The random source *)

Lemma skip_0 (g : Rng) : skip g 0 = g.
Proof. destruct g as [t p]; unfold skip; cbn. now rewrite Nat.add_0_r. Qed.

Lemma skip_skip (g : Rng) (a b : nat) : skip (skip g a) b = skip g (a + b).
Proof. unfold skip; cbn. now rewrite Nat.add_assoc. Qed.

Lemma advance_skip (g : Rng) : advance g = skip g 1.
Proof. unfold advance, skip. now rewrite Nat.add_1_r. Qed.

Lemma unit_of_raw_range (r : N) : (0 <= unit_of_raw r /\ unit_of_raw r < 1)%Q.
Proof.
  unfold unit_of_raw, Qle, Qlt; cbn [Qnum Qden].
  assert (Hlt : (r mod 9007199254740992 < 9007199254740992)%N)
    by (apply N.mod_upper_bound; discriminate).
  apply N2Z.inj_lt in Hlt.
  pose proof (N2Z.is_nonneg (r mod 9007199254740992)) as Hge.
  generalize dependent (Z.of_N (r mod 9007199254740992)). intros z Hlt Hge.
  change (Z.of_N 9007199254740992) with 9007199254740992%Z in Hlt.
  split; lia.
Qed.

(** In exact arithmetic a unit sample is carried into [[lo, hi)]; the
    rounded sum need not stay below [hi] (see [Binary64]). *)
Lemma scale_in_range (x_lim : Q * Q) (u : Q) :
  (fst x_lim < snd x_lim)%Q -> (0 <= u /\ u < 1)%Q ->
  in_range x_lim (fst x_lim + (snd x_lim - fst x_lim) * u)%Q.
Proof.
  unfold in_range. intros Hlim [H0 H1]. split; nra.
Qed.

Lemma random_samples_tape (n : nat) (g : Rng) :
  random_samples n g
  = (map (fun j => unit_of_raw (tape g j)) (seq (pos g) n), skip g n).
Proof.
  revert g. induction n as [|n IH]; intros g.
  - cbn. now rewrite skip_0.
  - cbn [random_samples random_sample]. rewrite IH.
    unfold skip, advance; cbn [seq map tape pos].
    do 2 f_equal. lia.
Qed.

Lemma uniform_tape (x_lim : Q * Q) (n : nat) (g : Rng) :
  uniform (fst x_lim) (snd x_lim) n g = (vector_at x_lim n g (pos g), skip g n).
Proof.
  unfold uniform, vector_at. rewrite random_samples_tape, map_map. reflexivity.
Qed.

Lemma vector_at_skip (x_lim : Q * Q) (n : nat) (g : Rng) (k p : nat) :
  vector_at x_lim n (skip g k) p = vector_at x_lim n g p.
Proof. reflexivity. Qed.

Lemma vector_at_length (x_lim : Q * Q) (n : nat) (g : Rng) (p : nat) :
  length (vector_at x_lim n g p) = n.
Proof. unfold vector_at. now rewrite length_map, length_seq. Qed.

Lemma vector_at_in_range (x_lim : Q * Q) (n : nat) (g : Rng) (p : nat) :
  (fst x_lim < snd x_lim)%Q -> Forall (in_range x_lim) (vector_at x_lim n g p).
Proof.
  intros Hlim. unfold vector_at. apply Forall_map, Forall_forall.
  intros j _. apply scale_in_range; [assumption | apply unit_of_raw_range].
Qed.

Lemma fresh_vectors_S (x_lim : Q * Q) (n : nat) (g : Rng) (count : nat) :
  fresh_vectors x_lim n g (S count)
  = vector_at x_lim n g (pos g) :: fresh_vectors x_lim n (skip g n) count.
Proof.
  unfold fresh_vectors. cbn [seq map]. rewrite Nat.add_0_r. f_equal.
  rewrite <- seq_shift, map_map. apply map_ext. intros i.
  rewrite vector_at_skip. f_equal. cbn. lia.
Qed.

Lemma fresh_samples_S x_lim n inp dat (g : Rng) (count : nat) :
  fresh_samples x_lim n inp dat g (S count)
  = (inp (vector_at x_lim n g (pos g)), dat (vector_at x_lim n g (pos g)))
      :: fresh_samples x_lim n inp dat (skip g n) count.
Proof. unfold fresh_samples. now rewrite fresh_vectors_S. Qed.

Lemma fresh_samples_length x_lim n inp dat (g : Rng) (count : nat) :
  length (fresh_samples x_lim n inp dat g count) = count.
Proof.
  unfold fresh_samples, fresh_vectors. now rewrite !length_map, length_seq.
Qed.

(** ** The generator and the stream built on it *)

Section Generation.

Variables (x_lim : Q * Q) (n : nat).
Variables (inp : Tensor -> Tensor) (dat : Tensor -> Q).
Variable max : Z.

Let G := data_generator x_lim n inp dat max.
Let fresh := fresh_samples x_lim n inp dat.

Lemma gen_resume_below (i : Z) (g : Rng) :
  i < max ->
  gen_resume G i g
  = (Some (inp (vector_at x_lim n g (pos g)), dat (vector_at x_lim n g (pos g))),
     i + 1, skip g n).
Proof.
  intros Hi. cbn. apply Z.ltb_lt in Hi. rewrite Hi.
  now rewrite uniform_tape.
Qed.

Lemma gen_resume_done (i : Z) (g : Rng) :
  max <= i -> gen_resume G i g = (None, i, g).
Proof.
  intros Hi. cbn. apply Z.ltb_ge in Hi. now rewrite Hi.
Qed.

(** Run to completion: the samples left to emit, then [StopIteration]. *)
Lemma gen_run_fresh (fuel : nat) (i : Z) (g : Rng) :
  i <= max -> (Z.to_nat (max - i) < fuel)%nat ->
  gen_run G fuel i g
  = (fresh g (Z.to_nat (max - i)), true, skip g (Z.to_nat (max - i) * n)).
Proof.
  revert i g. induction fuel as [|fuel IH]; intros i g Hi Hf; [lia|].
  cbn [gen_run]. destruct (Z.eq_dec i max) as [->|Hne].
  - rewrite gen_resume_done by lia. rewrite Z.sub_diag. cbn.
    now rewrite skip_0.
  - rewrite gen_resume_below by lia.
    rewrite IH by lia.
    replace (Z.to_nat (max - i)) with (S (Z.to_nat (max - (i + 1)))) by lia.
    unfold fresh. rewrite fresh_samples_S, skip_skip.
    do 2 f_equal. 
Qed.

(** Pulling [c] elements while the generator still has that many. *)
Lemma gen_take_fresh (c : nat) (i : Z) (g : Rng) :
  i + Z.of_nat c <= max ->
  ds_take (from_generator G) c i g
  = (fresh g c, i + Z.of_nat c, skip g (c * n)).
Proof.
  revert i g. induction c as [|c IH]; intros i g Hi.
  - cbn. now rewrite skip_0, Z.add_0_r.
  - cbn [ds_take]. change (it_next (from_generator G)) with (gen_resume G).
    rewrite gen_resume_below by lia. rewrite IH by lia.
    unfold fresh. rewrite fresh_samples_S, skip_skip.
    replace (i + 1 + Z.of_nat c) with (i + Z.of_nat (S c)) by lia.
    replace (n + c * n)%nat with (S c * n)%nat by lia.
    reflexivity.
Qed.

Lemma gen_take_done (c : nat) (i : Z) (g : Rng) :
  max <= i -> ds_take (from_generator G) c i g = ([], i, g).
Proof.
  intros Hi. destruct c as [|c]; [reflexivity|].
  cbn [ds_take]. change (it_next (from_generator G)) with (gen_resume G).
  now rewrite gen_resume_done.
Qed.

(** The stream of [create_dataset] for a positive batch size [k] and
    [max = tb * k] samples per pass. *)
Variables (k tb : nat).
Hypothesis k_pos : (0 < k)%nat.
Hypothesis max_eq : max = Z.of_nat tb * Z.of_nat k.

Let stream := repeat (batched k (from_generator G)).

Let between_batches := stream_between_batches max k.

Lemma batch_below (i : Z) (g : Rng) :
  i + Z.of_nat k <= max ->
  batch_next (from_generator G) k i g
  = (Some (fresh g k), i + Z.of_nat k, skip g (k * n)).
Proof.
  intros Hi. unfold batch_next. rewrite gen_take_fresh by assumption.
  pose proof (fresh_samples_length x_lim n inp dat g k) as Hl.
  fold fresh in Hl. destruct (fresh g k); [cbn in Hl; lia | reflexivity].
Qed.

Lemma batch_done (g : Rng) :
  batch_next (from_generator G) k max g = (None, max, g).
Proof. unfold batch_next. rewrite gen_take_done by lia. reflexivity. Qed.

Lemma stream_next (s : Z * bool) (g : Rng) :
  (0 < tb)%nat -> between_batches s ->
  exists s', it_next stream s g = (Some (fresh g k), s', skip g (k * n))
             /\ between_batches s'.
Proof.
  unfold between_batches, stream_between_batches.
  intros Htb (Hr & [q Hq] & Hf). destruct s as [i f]. cbn [fst snd] in *.
  cbn [it_next stream repeat repeat_next].
  change (it_next (batched k (from_generator G)))
    with (batch_next (from_generator G) k).
  destruct (Z.eq_dec i max) as [->|Hne].
  - rewrite batch_done. destruct f.
    + specialize (Hf eq_refl). nia.
    + change (it_init (batched k (from_generator G))) with 0.
      rewrite batch_below by nia.
      eexists; split; [reflexivity|].
      repeat split; cbn [fst snd]; try nia; try discriminate.
      exists 1; lia.
  - assert (Hq1 : q + 1 <= Z.of_nat tb).
    { apply Z.lt_succ_r. unfold Z.succ. apply Z.add_lt_mono_r.
      apply Z.mul_lt_mono_pos_r with (p := Z.of_nat k); lia. }
    assert (Hstep : i + Z.of_nat k <= max).
    { rewrite Hq, max_eq.
      replace (q * Z.of_nat k + Z.of_nat k) with ((q + 1) * Z.of_nat k) by ring.
      apply Z.mul_le_mono_nonneg_r; lia. }
    rewrite batch_below by assumption.
    eexists; split; [reflexivity|].
    repeat split; cbn [fst snd]; try lia; try discriminate.
    exists (q + 1); lia.
Qed.

Lemma fresh_batch_shift (g : Rng) (j : nat) :
  fresh_batch x_lim n inp dat k (skip g (k * n)) j
  = fresh_batch x_lim n inp dat k g (S j).
Proof.
  unfold fresh_batch. rewrite skip_skip. do 2 f_equal. 
Qed.

Lemma stream_take (N : nat) (s : Z * bool) (g : Rng) :
  (0 < tb)%nat -> between_batches s ->
  exists s', ds_take stream N s g
             = (map (fresh_batch x_lim n inp dat k g) (seq 0 N), s',
                skip g (N * (k * n)))
             /\ between_batches s'.
Proof.
  intros Htb. revert s g. induction N as [|N IH]; intros s g Hs.
  - exists s. cbn. now rewrite skip_0.
  - cbn [ds_take]. destruct (stream_next g Htb Hs) as (s1 & -> & Hs1).
    destruct (IH s1 (skip g (k * n)) Hs1) as (s2 & -> & Hs2).
    exists s2. split; [|assumption].
    rewrite skip_skip. cbn [seq map]. rewrite <- seq_shift, map_map.
    assert (E0 : fresh g k = fresh_batch x_lim n inp dat k g 0).
    { unfold fresh_batch, fresh. cbn. now rewrite skip_0. }
    rewrite E0.
    rewrite (map_ext _ _ (fresh_batch_shift g)).
    replace (k * n + N * (k * n))%nat with (S N * (k * n))%nat by lia.
    reflexivity.
Qed.

End Generation.

(** ** The Keras protocol *)

Section KerasFacts.
Context {B : Backend}.

Lemma logs_of_keys (c : Compiled) (tr : Trace) :
  map fst (logs_of c tr) = "loss"%string :: map loss_name (metrics c).
Proof. unfold logs_of. cbn. now rewrite map_map. Qed.

(** The training steps of an epoch pull the batches [ds_take] pulls: what
    the optimizer does to the parameters has no bearing on the stream. *)
Lemma train_steps_batches (l : Loss) (d : Dataset Batch) (n : nat) :
  forall (s : it_state d) (wo : Weights * OptState) (g : Rng) bs s2 g2,
    ds_take d n s g = (bs, s2, g2) ->
    exists tr wo1,
      train_steps l d n s wo g = (tr, s2, wo1, (length bs <? n)%nat, g2)
      /\ map snd tr = bs.
Proof.
  induction n as [|n IH]; intros s wo g bs s2 g2 Ht.
  - cbn in Ht. injection Ht as <- <- <-. exists [], wo. now cbn.
  - cbn [ds_take] in Ht. cbn [train_steps].
    destruct (it_next d s g) as [[[b|] s1] g1].
    + destruct (ds_take d n s1 g1) as [[bs' s'] g'] eqn:E.
      injection Ht as <- <- <-.
      destruct (IH s1 (opt_step l wo b) g1 bs' s' g' E) as (tr & wo1 & -> & Hm).
      exists ((fst wo, b) :: tr), wo1. split; [|cbn; now rewrite Hm].
      reflexivity.
    + injection Ht as <- <- <-. exists [], wo. now cbn.
Qed.

(** Every record of a history carries the loss and each compiled metric,
    and the only exception [fit] raises is the "empty logs" ValueError. *)
Lemma fit_epochs_records (c : Compiled) (d : Dataset Batch) (steps : Z)
    (vd : option (Dataset Batch)) (vsteps : Z) (cbs : list Callback)
    (remaining : nat) :
  forall epoch s wo has_logs g,
    let r := fst (fst (fit_epochs c d steps vd vsteps cbs remaining epoch s wo has_logs g)) in
    Forall (fun rec => forall key,
                In key ("loss"%string :: map loss_name (metrics c)) ->
                reports key rec) (history_of r)
    /\ (length (history_of r) <= remaining)%nat
    /\ (r = inl ValueError \/ exists h, r = inr h).
Proof.
  induction remaining as [|rem IH]; intros epoch s wo has_logs g r.
  - subst r. cbn. repeat split; [constructor | lia | right; now exists []].
  - subst r. cbn [fit_epochs].
    destruct (train_steps (loss c) d (Z.to_nat steps)
                (if should_recreate_iterator d steps then it_init d else s) wo g)
      as [[[[tr s1] wo1] out] g1].
    assert (Hbody :
      forall tr',
        let r := fst (fst (
          let (val_logs, g2) :=
            match vd with
            | None => ([], g1)
            | Some v =>
                let (lg, g') := test_loop c (fst wo1) v vsteps g1 in
                (val_prefix lg, g')
            end in
          let epoch_logs := (logs_of c tr' ++ val_logs)%list in
          let stop := existsb (fun cb => cb epoch epoch_logs) cbs in
          if stop || out then (inr [epoch_logs], wo1, g2)
          else
            let '(res, wo2, g3) :=
              fit_epochs c d steps vd vsteps cbs rem (epoch + 1) s1 wo1 true g2 in
            (match res with
             | inl e => inl e
             | inr h => inr (epoch_logs :: h)
             end, wo2, g3))) in
        Forall (fun rec => forall key,
                In key ("loss"%string :: map loss_name (metrics c)) ->
                reports key rec) (history_of r)
        /\ (length (history_of r) <= S rem)%nat
        /\ (r = inl ValueError \/ exists h, r = inr h)).
    { intros tr'.
      destruct (match vd with
                | None => ([], g1)
                | Some v => let (lg, g') := test_loop c (fst wo1) v vsteps g1 in
                            (val_prefix lg, g')
                end) as [val_logs g2].
      cbn zeta.
      assert (Hrec : forall key,
                 In key ("loss"%string :: map loss_name (metrics c)) ->
                 reports key (logs_of c tr' ++ val_logs)%list).
      { intros key Hk. unfold reports. rewrite map_app, logs_of_keys.
        apply in_or_app. now left. }
      match goal with |- context [if ?b then _ else _] => destruct b end.
      - cbn [fst history_of length].
        split; [constructor; [exact Hrec | constructor] |].
        split; [lia | right; eauto].
      - specialize (IH (epoch + 1) s1 wo1 true g2).
        destruct (fit_epochs c d steps vd vsteps cbs rem (epoch + 1) s1 wo1 true g2)
          as [[res wo2] g3].
        cbn [fst] in IH. destruct IH as (Hf & Hl & Hr). cbn [fst].
        destruct res as [e|h]; cbn [history_of length] in *.
        + split; [constructor|]. split; [lia|].
          destruct Hr as [Hr|[h Hr]]; [now left | discriminate].
        + split; [constructor; assumption|]. split; [lia | right; eauto]. }
    destruct tr as [|wb tr].
    + destruct has_logs.
      * apply (Hbody []).
      * cbn [fst history_of length].
        split; [constructor|]. split; [lia | now left].
    + destruct has_logs; apply (Hbody (wb :: tr)).
Qed.

(** [fit] leaves the model's name and what was compiled, up to the
    optimizer's state. *)
Lemma keras_fit_model (m : Model) (d : Dataset Batch) (epochs steps : Z)
    (vd : option (Dataset Batch)) (vsteps : Z) (cbs : list Callback) (g : Rng)
    (c : Compiled) :
  compiled m = Some c ->
  let m' := snd (fst (keras_fit m d epochs steps vd vsteps cbs g)) in
  model_name m' = model_name m
  /\ exists c', compiled m' = Some c'
                /\ optimizer c' = optimizer c /\ loss c' = loss c
                /\ metrics c' = metrics c /\ run_eagerly c' = run_eagerly c.
Proof.
  intros Hc. unfold keras_fit. rewrite Hc.
  destruct (fit_epochs c d steps vd vsteps cbs (Z.to_nat epochs) 0
              (it_init d) (weights m, opt_state c) false g) as [[res wo] g1].
  cbn. split; [reflexivity|]. eexists; split; [reflexivity|]. now cbn.
Qed.

Lemma keras_fit_uncompiled (m : Model) (d : Dataset Batch) (epochs steps : Z)
    (vd : option (Dataset Batch)) (vsteps : Z) (cbs : list Callback) (g : Rng) :
  compiled m = None ->
  keras_fit m d epochs steps vd vsteps cbs g = (inl RuntimeError, m, g).
Proof. intros Hc. unfold keras_fit. now rewrite Hc. Qed.

End KerasFacts.

(** ** The methods of a task *)

Section TaskFacts.
Context {B : Backend}.

Lemma SequentialTask_init_compiles nm m bl tr tb vd vb bs inp dat xl yl :
  SequentialTask_init nm m bl tr tb vd vb bs inp dat xl yl
  = compile_model
      {| name := nm; model := m; model_base_loss := bl;
         training_dataset := tr; training_batches := tb;
         validation_dataset := vd; validation_batches := vb;
         batch_size := bs; input_data_fn := inp; data_fn := dat;
         x_lim := xl; y_lim := yl |} bl.
Proof. reflexivity. Qed.

Lemma with_model_same_attributes (t : SequentialTask) (m : Model) :
  same_attributes t (with_model t m).
Proof. unfold same_attributes. cbn. tauto. Qed.

Lemma same_attributes_refl (t : SequentialTask) : same_attributes t t.
Proof. unfold same_attributes. tauto. Qed.

Lemma same_attributes_trans (t1 t2 t3 : SequentialTask) :
  same_attributes t1 t2 -> same_attributes t2 t3 -> same_attributes t1 t3.
Proof.
  unfold same_attributes. intros H12 H23.
  decompose [and] H12. decompose [and] H23.
  repeat split; congruence.
Qed.

Lemma compile_model_tracks (t : SequentialTask) (l : Loss) :
  tracks_base_loss (compile_model t l).
Proof. eexists. cbn. split; reflexivity. Qed.

Lemma train_on_task_result (t : SequentialTask) (epochs : Z)
    (cbs : list Callback) (g : Rng) :
  train_on_task t epochs cbs g
  = (fst (fst (keras_fit (model t) (training_dataset t) epochs
                 (training_batches t) (validation_dataset t)
                 (validation_batches t) cbs g)),
     with_model t
       (snd (fst (keras_fit (model t) (training_dataset t) epochs
                    (training_batches t) (validation_dataset t)
                    (validation_batches t) cbs g))),
     snd (keras_fit (model t) (training_dataset t) epochs
            (training_batches t) (validation_dataset t)
            (validation_batches t) cbs g)).
Proof.
  unfold train_on_task.
  now destruct (keras_fit _ _ _ _ _ _ _ _) as [[h m] g1].
Qed.

Lemma train_on_task_same_attributes (t : SequentialTask) (epochs : Z)
    (cbs : list Callback) (g : Rng) :
  same_attributes t (snd (fst (train_on_task t epochs cbs g))).
Proof. rewrite train_on_task_result. apply with_model_same_attributes. Qed.

Lemma train_on_task_tracks (t : SequentialTask) (epochs : Z)
    (cbs : list Callback) (g : Rng) :
  tracks_base_loss t ->
  tracks_base_loss (snd (fst (train_on_task t epochs cbs g))).
Proof.
  intros (c & Hc & Hm). rewrite train_on_task_result. cbn [fst snd].
  destruct (@keras_fit_model B (model t) (training_dataset t) epochs
              (training_batches t) (validation_dataset t)
              (validation_batches t) cbs g c Hc)
    as (_ & c' & Hc' & _ & _ & Hm' & _).
  exists c'. cbn. split; [exact Hc' | congruence].
Qed.

Lemma train_on_task_reports (t : SequentialTask) (epochs : Z)
    (cbs : list Callback) (g : Rng) :
  tracks_base_loss t ->
  Forall (reports (loss_name (model_base_loss t)))
         (history_of (fst (fst (train_on_task t epochs cbs g)))).
Proof.
  intros (c & Hc & Hm). rewrite train_on_task_result. cbn [fst snd].
  unfold keras_fit. rewrite Hc.
  pose proof (fit_epochs_records c (training_dataset t) (training_batches t)
                (validation_dataset t) (validation_batches t) cbs
                (Z.to_nat epochs) 0 (it_init (training_dataset t))
                (weights (model t), opt_state c) false g) as (Hf & _).
  destruct (fit_epochs _ _ _ _ _ _ _ _ _ _ _ _) as [[res wo] g1].
  cbn [fst] in *. eapply Forall_impl; [|exact Hf].
  intros rec Hrec. apply Hrec. rewrite Hm. cbn. auto.
Qed.

Lemma evaluate_model_self (t : SequentialTask) (g : Rng) :
  snd (fst (evaluate_model t g)) = t.
Proof.
  unfold evaluate_model. destruct (validation_dataset t); [|reflexivity].
  now destruct (keras_evaluate _ _ _ _).
Qed.

Lemma evaluate_model_reports (t : SequentialTask) (g : Rng) :
  tracks_base_loss t ->
  let lg := logs_of_result (fst (fst (evaluate_model t g))) in
  lg = [] \/ reports (loss_name (model_base_loss t)) lg.
Proof.
  intros (c & Hc & Hm). unfold evaluate_model.
  destruct (validation_dataset t) as [v|]; [|now left].
  unfold keras_evaluate, test_loop. rewrite Hc.
  destruct (ds_take v _ _ _) as [[bs s1] g1]. cbn.
  destruct bs; [now left|]. right.
  unfold reports. rewrite logs_of_keys, Hm. cbn. auto.
Qed.

(** Whatever the calls, the base loss stays tracked, the attributes stay
    as stored, and each record that is not empty reports the base loss. *)
Lemma run_calls_invariant (calls : list Call) :
  forall (t : SequentialTask) (g : Rng),
    tracks_base_loss t ->
    let '(recs, t', _) := run_calls calls t g in
    tracks_base_loss t' /\ same_attributes t t'
    /\ Forall (fun rec => rec = [] \/ reports (loss_name (model_base_loss t)) rec)
              recs.
Proof.
  induction calls as [|c calls IH]; intros t g Ht.
  - cbn. split; [assumption|]. split; [apply same_attributes_refl | constructor].
  - cbn [run_calls].
    assert (Hstep :
      let '(recs, t1, _) := run_call c t g in
      tracks_base_loss t1 /\ same_attributes t t1
      /\ Forall (fun rec => rec = [] \/ reports (loss_name (model_base_loss t)) rec)
                recs).
    { destruct c as [l|epochs cbs|]; cbn [run_call].
      - split; [apply compile_model_tracks|].
        split; [apply with_model_same_attributes | constructor].
      - pose proof (train_on_task_tracks epochs cbs g Ht) as H1.
        pose proof (train_on_task_same_attributes t epochs cbs g) as H2.
        pose proof (train_on_task_reports epochs cbs g Ht) as H3.
        destruct (train_on_task t epochs cbs g) as [[r t1] g1]. cbn [fst snd] in *.
        repeat split; try assumption; try apply H2.
        eapply Forall_impl; [|exact H3]. intros rec Hr; now right.
      - pose proof (evaluate_model_self t g) as H1.
        pose proof (evaluate_model_reports g Ht) as H2.
        destruct (evaluate_model t g) as [[r t1] g1]. cbn [fst snd] in *.
        subst t1. split; [assumption|]. split; [apply same_attributes_refl|].
        constructor; [exact H2 | constructor]. }
    destruct (run_call c t g) as [[recs t1] g1].
    destruct Hstep as (Ht1 & Hs1 & Hr1).
    specialize (IH t1 g1 Ht1).
    destruct (run_calls calls t1 g1) as [[recs' t2] g2].
    destruct IH as (Ht2 & Hs2 & Hr2).
    split; [assumption|]. split; [eapply same_attributes_trans; eassumption|].
    apply Forall_app. split; [assumption|].
    assert (Hb : model_base_loss t1 = model_base_loss t) by apply Hs1.
    now rewrite Hb in Hr2.
Qed.

End TaskFacts.

(** ** C2 *)

(** The loss-swap scenario on the concrete task: one epoch with the base
    loss, recompilation with the regularized loss, one more epoch; the
    second history still carries the base-loss metric, and the parameters
    the second epoch starts from are those the first epoch ended with. *)
Example loss_swap_scenario :
  let '(h1, t1, g1) := train_on_task Demo.exact 1 [] Demo.eighths in
  let t2 := compile_model t1 Demo.regularized in
  let '(h2, _, _) := train_on_task t2 1 [] g1 in
  map (map fst) (history_of h1)
  = [["loss"; "mean_squared_error"; "val_loss"; "val_mean_squared_error"]%string]
  /\ map (map fst) (history_of h2)
     = [["loss"; "mean_squared_error"; "val_loss"; "val_mean_squared_error"]%string]
  /\ weights (model t2) = weights (model t1).
Proof. vm_compute. repeat split. Qed.

(** C2.  [compile_model] keeps the model's parameters and name and every
    stored attribute of the task; what it installs is the given loss, next
    to the settings that are the same at every call (the ADAM optimizer,
    the base loss as metric, graph execution). *)
Theorem compile_model_keeps_weights `{B : Backend}
    (t : SequentialTask) (loss_fn : Loss) :
  let t' := compile_model t loss_fn in
  weights (model t') = weights (model t)
  /\ model_name (model t') = model_name (model t)
  /\ same_attributes t t'
  /\ exists c, compiled (model t') = Some c
               /\ loss c = loss_fn
               /\ optimizer c = "ADAM"%string
               /\ metrics c = [model_base_loss t]
               /\ run_eagerly c = false.
Proof.
  cbn. split; [reflexivity|]. split; [reflexivity|].
  split; [apply with_model_same_attributes|].
  eexists. split; [reflexivity|]. now cbn.
Qed.

(** ** The streams of a function-approximation task *)

Lemma create_dataset_positive shape x_lim n inp dat (batch_size max_samples : Z) :
  0 < batch_size ->
  create_dataset shape x_lim n inp dat batch_size max_samples
  = inr (repeat (batched (Z.to_nat batch_size)
                   (from_generator (data_generator x_lim n inp dat max_samples)))).
Proof.
  intros Hb. unfold create_dataset, batch.
  destruct (batch_size <=? 0) eqn:E; [apply Z.leb_le in E; lia | reflexivity].
Qed.

Lemma create_dataset_rejects shape x_lim n inp dat (batch_size max_samples : Z) :
  batch_size <= 0 ->
  create_dataset shape x_lim n inp dat batch_size max_samples
  = inl InvalidArgumentError.
Proof.
  intros Hb. unfold create_dataset, batch.
  apply Z.leb_le in Hb. now rewrite Hb.
Qed.

Lemma stream_batches x_lim n inp dat (batch_size count : Z) (N : nat) (g : Rng) :
  0 < batch_size -> 0 < count ->
  let d := repeat (batched (Z.to_nat batch_size)
                     (from_generator
                        (data_generator x_lim n inp dat (count * batch_size)))) in
  fst (fst (ds_take d N (it_init d) g))
  = map (fresh_batch x_lim n inp dat (Z.to_nat batch_size) g) (seq 0 N)
  /\ snd (ds_take d N (it_init d) g) = skip g (N * (Z.to_nat batch_size * n)).
Proof.
  intros Hb Hc d.
  assert (Hk : (0 < Z.to_nat batch_size)%nat) by lia.
  assert (Hmax : count * batch_size
                 = Z.of_nat (Z.to_nat count) * Z.of_nat (Z.to_nat batch_size)) by lia.
  assert (Ht : (0 < Z.to_nat count)%nat) by lia.
  assert (H0 : stream_between_batches (count * batch_size) (Z.to_nat batch_size)
                 (0, true)).
  { unfold stream_between_batches. cbn [fst snd].
    split; [nia|]. split; [exists 0; lia | reflexivity]. }
  destruct (@stream_take x_lim n inp dat (count * batch_size)
              (Z.to_nat batch_size) (Z.to_nat count) Hk Hmax N (0, true) g Ht H0)
    as (s' & E & _).
  subst d. change (it_init (repeat _)) with (0, true).
  rewrite E. now cbn.
Qed.

Lemma stream_yields_forever x_lim n inp dat (batch_size count : Z) :
  0 < batch_size -> 0 < count ->
  yields_batches_forever
    (repeat (batched (Z.to_nat batch_size)
               (from_generator
                  (data_generator x_lim n inp dat (count * batch_size)))))
    (Z.to_nat batch_size).
Proof.
  intros Hb Hc N g.
  pose proof (@stream_batches x_lim n inp dat batch_size count N g Hb Hc) as H.
  cbv zeta in H. destruct H as (E & _).
  cbv zeta. unfold Batch in *. rewrite E. split.
  - now rewrite length_map, length_seq.
  - apply Forall_map, Forall_forall. intros j _.
    unfold fresh_batch. apply fresh_samples_length.
Qed.

(** With no sample to emit, a pass is empty, and so is the repetition. *)
Lemma empty_stream_take x_lim n inp dat (k : nat) (max_samples : Z) (N : nat)
    (g : Rng) :
  max_samples <= 0 ->
  let d := repeat (batched k
                     (from_generator
                        (data_generator x_lim n inp dat max_samples))) in
  ds_take d N (it_init d) g = ([], it_init d, g).
Proof.
  intros Hm d. destruct N as [|N]; [reflexivity|].
  cbn [ds_take]. subst d. cbn [it_next repeat repeat_next it_init].
  change (it_next (batched k (from_generator (data_generator x_lim n inp dat max_samples))))
    with (batch_next (from_generator (data_generator x_lim n inp dat max_samples)) k).
  unfold batch_next.
  change (it_init (batched k (from_generator (data_generator x_lim n inp dat max_samples))))
    with 0.
  rewrite gen_take_done by lia. reflexivity.
Qed.

(** ** C5 *)





(** ** C3 *)


Lemma identity_meets_signature : meets_signature [1] 1 Demo.identity.
Proof. intros x Hx. unfold tensor_shape, Demo.identity. now rewrite Hx. Qed.



(** ** C6 *)

Lemma init_succeeds_positive `{B : Backend}
    (nm : string) (m : Model) (base_loss : Loss) (n : nat) (shape : list Z)
    (inp : Tensor -> Tensor) (dat : Tensor -> Q)
    (training_count validation_count batch_size : Z)
    (x_lim : Q * Q) (y_lim : option (Q * Q)) (t : FunctionApproximationTask) :
  FunctionApproximationTask_init nm m base_loss n shape inp dat
    training_count validation_count batch_size x_lim y_lim = inr t ->
  0 < batch_size.
Proof.
  intros E. destruct (Z_lt_le_dec 0 batch_size) as [H|H]; [exact H|].
  unfold FunctionApproximationTask_init in E.
  rewrite create_dataset_rejects in E by assumption. discriminate.
Qed.

(** The attribute [batch_size] of a built task is the base class's
    default, whatever batch size the streams were built with. *)
Lemma stored_batch_size_is_default `{B : Backend}
    (nm : string) (m : Model) (base_loss : Loss) (n : nat) (shape : list Z)
    (inp : Tensor -> Tensor) (dat : Tensor -> Q)
    (training_count validation_count size : Z)
    (x_lim : Q * Q) (y_lim : option (Q * Q)) (t : FunctionApproximationTask) :
  FunctionApproximationTask_init nm m base_loss n shape inp dat
    training_count validation_count size x_lim y_lim = inr t ->
  batch_size (base t) = 0.
Proof.
  intros E. pose proof (init_succeeds_positive _ _ _ _ _ _ _ _ _ _ _ _ E) as Hb.
  unfold FunctionApproximationTask_init in E.
  rewrite !create_dataset_positive in E by assumption.
  now injection E as <-.
Qed.

(** C6, as the code has it.  Every task the constructor builds, with an
    input transform whose results have the declared shape, has the two
    sample counts stored as products of batch count and batch size; each
    of its streams is the generator for that many samples, then batches of
    [batch_size], then endless repetition, a pass of the generator being
    bounded by the sample count; the model has been compiled with the base
    loss; and the three methods of the task are the base class's, run on
    the same object.  A task is built only with a positive batch size. *)
Theorem approximation_task_construction `{B : Backend}
    (nm : string) (m : Model) (base_loss : Loss) (n : nat) (shape : list Z)
    (inp : Tensor -> Tensor) (dat : Tensor -> Q)
    (training_count validation_count batch_size : Z)
    (x_lim : Q * Q) (y_lim : option (Q * Q)) (t : FunctionApproximationTask) :
  FunctionApproximationTask_init nm m base_loss n shape inp dat
    training_count validation_count batch_size x_lim y_lim = inr t ->
  meets_signature shape n inp ->
  let stream count :=
    repeat (batched (Z.to_nat batch_size)
              (from_generator
                 (data_generator x_lim n inp dat (count * batch_size)))) in
  0 < batch_size
  /\ training_samples t = training_count * batch_size
  /\ validation_samples t = validation_count * batch_size
  /\ training_dataset (base t) = stream training_count
  /\ validation_dataset (base t) = Some (stream validation_count)
  /\ training_batches (base t) = training_count
  /\ validation_batches (base t) = validation_count
  /\ (forall count fuel g,
         0 <= count -> (Z.to_nat (count * batch_size) < fuel)%nat ->
         length (fst (fst (gen_run
                   (data_generator x_lim n inp dat (count * batch_size))
                   fuel 0 g)))
         = Z.to_nat (count * batch_size))
  /\ (forall count, 0 < count ->
         yields_batches_forever (stream count) (Z.to_nat batch_size))
  /\ tracks_base_loss (base t)
  /\ (forall l, base (fa_compile_model t l) = compile_model (base t) l)
  /\ (forall epochs cbs g,
         fst (fst (fa_train_on_task t epochs cbs g))
         = fst (fst (train_on_task (base t) epochs cbs g))
         /\ base (snd (fst (fa_train_on_task t epochs cbs g)))
            = snd (fst (train_on_task (base t) epochs cbs g))
         /\ snd (fa_train_on_task t epochs cbs g)
            = snd (train_on_task (base t) epochs cbs g))
  /\ (forall g,
         fst (fst (fa_evaluate_model t g)) = fst (fst (evaluate_model (base t) g))
         /\ base (snd (fst (fa_evaluate_model t g)))
            = snd (fst (evaluate_model (base t) g))
         /\ snd (fa_evaluate_model t g) = snd (evaluate_model (base t) g)).
Proof.
  intros E _ stream.
  pose proof (init_succeeds_positive _ _ _ _ _ _ _ _ _ _ _ _ E) as Hb.
  unfold FunctionApproximationTask_init in E.
  rewrite !create_dataset_positive in E by assumption.
  injection E as <-. cbn [training_samples validation_samples base].
  split; [exact Hb|].
  split; [reflexivity|]. split; [reflexivity|]. split; [reflexivity|].
  split; [reflexivity|]. split; [reflexivity|]. split; [reflexivity|].
  split.
  { intros count fuel g Hc Hf.
    pose proof (@gen_run_fresh x_lim n inp dat (count * batch_size) fuel 0 g) as H.
    rewrite Z.sub_0_r in H. rewrite H by lia. cbn [fst].
    apply fresh_samples_length. }
  split; [intros count Hc; now apply stream_yields_forever|].
  split; [apply compile_model_tracks|].
  split; [reflexivity|].
  split.
  - intros epochs cbs g. unfold fa_train_on_task.
    destruct (train_on_task _ epochs cbs g) as [[h b] g1]. now cbn.
  - intros g. unfold fa_evaluate_model.
    destruct (evaluate_model _ g) as [[r b] g1]. now cbn.
Qed.

Lemma approximation_task_construction_witness :
  meets_signature [1] 1 Demo.identity /\
  exists t, Demo.approximation 10 0 4 = inr t
            /\ training_samples t = 40 /\ validation_samples t = 0
            /\ training_batches (base t) = 10
            /\ yields_batches_forever (training_dataset (base t)) 4.
Proof.
  split; [exact identity_meets_signature|].
  eexists. split; [reflexivity|].
  destruct (@approximation_task_construction Demo.linear "Task 1"
              Demo.fresh_model Demo.mse 1 [1] Demo.identity Demo.target
              10 0 4 default_x_lim None _ eq_refl identity_meets_signature)
    as (_ & Hts & Hvs & Htd & _ & Htb & _ & _ & Hy & _).
  split; [exact Hts|]. split; [exact Hvs|].
  split; [exact Htb|]. rewrite Htd. apply (Hy 10). lia.
Defined.

(** C6 fails as stated: a construction with three training batches, two
    validation batches and batch size zero builds no stream and no task;
    the batching stage raises. *)
Lemma zero_batch_size_builds_nothing :
  create_dataset [1] default_x_lim 1 Demo.identity Demo.target 0 (3 * 0)
  = inl InvalidArgumentError
  /\ Demo.approximation 3 2 0 = inl InvalidArgumentError.
Proof. split; reflexivity. Qed.

(** The end-to-end scenario: one independent variable, target [2 x + 1]
    on [(-1, 1)], batches of four, ten batches per epoch.  An epoch's worth
    of the training stream is ten batches of four samples, and one epoch of
    training gives a history of one record with the base-loss metric. *)
Example end_to_end_scenario :
  exists t,
    Demo.approximation 10 0 4 = inr t
    /\ map (@length Sample)
         (fst (fst (ds_take (training_dataset (base t)) 10
                      (it_init (training_dataset (base t))) Demo.eighths)))
       = List.repeat 4%nat 10
    /\ map (map fst)
         (history_of (fst (fst (fa_train_on_task t 1 [] Demo.eighths))))
       = [["loss"; "mean_squared_error"]%string].
Proof.
  eexists. split; [reflexivity|]. vm_compute. split; reflexivity.
Qed.

(** ** C9 *)

(** C9, as the code has it.  When the batch count or the batch size is
    zero, the sample count is zero and the generator stops at once, having
    drawn nothing.  With a zero batch count and a positive batch size the
    task is built and its training stream is empty: any request for
    batches ends at once with none.  A batch size that is not positive is
    turned down by the batching stage, and the constructor raises. *)
Theorem zero_sized_construction `{B : Backend}
    (nm : string) (m : Model) (base_loss : Loss) (n : nat) (shape : list Z)
    (inp : Tensor -> Tensor) (dat : Tensor -> Q)
    (training_count validation_count batch_size : Z)
    (x_lim : Q * Q) (y_lim : option (Q * Q)) (fuel : nat) (g : Rng) :
  training_count = 0 \/ batch_size = 0 -> (0 < fuel)%nat ->
  training_count * batch_size = 0
  /\ gen_run (data_generator x_lim n inp dat (training_count * batch_size))
             fuel 0 g = ([], true, g)
  /\ (0 < batch_size ->
      exists t,
        FunctionApproximationTask_init nm m base_loss n shape inp dat
          training_count validation_count batch_size x_lim y_lim = inr t
        /\ training_samples t = 0
        /\ forall (N : nat) (g' : Rng),
             ds_take (training_dataset (base t)) N
                     (it_init (training_dataset (base t))) g'
             = ([], it_init (training_dataset (base t)), g'))
  /\ (batch_size <= 0 ->
      FunctionApproximationTask_init nm m base_loss n shape inp dat
        training_count validation_count batch_size x_lim y_lim
      = inl InvalidArgumentError).
Proof.
  intros Hz Hf.
  assert (H0 : training_count * batch_size = 0) by (destruct Hz; subst; lia).
  split; [exact H0|]. split.
  - pose proof (@gen_run_fresh x_lim n inp dat (training_count * batch_size)
                  fuel 0 g) as H.
    rewrite H0 in *. cbn in H. rewrite skip_0 in H. apply H; lia.
  - split.
    + intros Hb. unfold FunctionApproximationTask_init.
      rewrite !create_dataset_positive by assumption.
      eexists. split; [reflexivity|]. cbn [training_samples base].
      split; [exact H0|]. intros N g'.
      apply (@empty_stream_take x_lim n inp dat (Z.to_nat batch_size)
               (training_count * batch_size) N g'). lia.
    + intros Hb. unfold FunctionApproximationTask_init.
      now rewrite create_dataset_rejects.
Qed.

Lemma zero_sized_construction_witness :
  (0 = 0 \/ 4 = 0) /\ (0 < 1)%nat /\
  gen_run (data_generator default_x_lim 1 Demo.identity Demo.target (0 * 4))
          1 0 Demo.eighths = ([], true, Demo.eighths)
  /\ exists t, Demo.approximation 0 0 4 = inr t /\ training_samples t = 0.
Proof.
  split; [now left|]. split; [lia|].
  destruct (@zero_sized_construction Demo.linear "Task 1" Demo.fresh_model
              Demo.mse 1 [1] Demo.identity Demo.target 0 0 4
              default_x_lim None 1%nat Demo.eighths)
    as (_ & Hg & Hpos & _); [now left | lia |].
  split; [exact Hg|].
  destruct Hpos as (t & E & Hs & _); [lia|].
  exists t. split; [exact E | exact Hs].
Defined.

(** C9 fails as stated: ten batches of size zero do not give a stream;
    the constructor raises. *)
Lemma zero_batch_size_rejected :
  Demo.approximation 10 0 0 = inl InvalidArgumentError
  /\ forall t, Demo.approximation 10 0 0 <> inr t.
Proof.
  split; [reflexivity|]. intros t. vm_compute. discriminate.
Qed.

(** ** Taking from a stream *)

Lemma ds_take_length {A} (d : Dataset A) (n : nat) :
  forall s g, (length (fst (fst (ds_take d n s g))) <= n)%nat.
Proof.
  induction n as [|n IH]; intros s g; [cbn; lia|].
  cbn [ds_take]. destruct (it_next d s g) as [[[a|] s1] g1]; [|cbn; lia].
  specialize (IH s1 g1). destruct (ds_take d n s1 g1) as [[l s2] g2].
  cbn in *. lia.
Qed.



(** ** C7 *)

(** C7, as the code has it.  Without a validation stream [evaluate_model]
    returns the empty mapping and raises nothing.  With one, it asks a new
    pass of the stream for [validation_batches] batches and runs those it
    gets, all of them when the stream supplies batches without end; when at
    least one batch ran, the mapping has the loss and the base-loss metric
    by name, and when none ran (a batch count of zero, the constructor's
    default, or an empty stream) the mapping is empty as well. *)
Theorem evaluate_model_mapping `{B : Backend}
    (t : SequentialTask) (c : Compiled) (g : Rng) :
  compiled (model t) = Some c ->
  match validation_dataset t with
  | None => evaluate_model t g = (inr [], t, g)
  | Some v =>
      let steps := Z.to_nat (validation_batches t) in
      let '(bs, _, g1) := ds_take v steps (it_init v) g in
      evaluate_model t g
      = (inr (match bs with
              | [] => []
              | _ => logs_of c (map (fun b => (weights (model t), b)) bs)
              end), t, g1)
      /\ (length bs <= steps)%nat
      /\ (forall k, yields_batches_forever v k -> length bs = steps)
      /\ (bs = []
          \/ map fst (logs_of c (map (fun b => (weights (model t), b)) bs))
             = "loss"%string :: map loss_name (metrics c))
  end.
Proof.
  intros Hc. unfold evaluate_model.
  destruct (validation_dataset t) as [v|]; [|reflexivity].
  cbv zeta. unfold keras_evaluate, test_loop. rewrite Hc.
  pose proof (ds_take_length v (Z.to_nat (validation_batches t)) (it_init v) g) as Hl.
  assert (Hy : forall k, yields_batches_forever v k ->
                 length (fst (fst (ds_take v (Z.to_nat (validation_batches t))
                                     (it_init v) g)))
                 = Z.to_nat (validation_batches t)).
  { intros k Hk. apply (Hk (Z.to_nat (validation_batches t)) g). }
  destruct (ds_take v _ _ _) as [[bs s1] g1]. cbn [fst snd] in *.
  split; [reflexivity|]. split; [exact Hl|]. split; [exact Hy|].
  destruct bs; [now left | right; apply logs_of_keys].
Qed.

Lemma evaluate_model_mapping_witness :
  (exists c, compiled (model Demo.exact) = Some c)
  /\ snd (fst (evaluate_model Demo.exact Demo.eighths)) = Demo.exact.
Proof.
  split; [eexists; reflexivity|].
  pose proof (@evaluate_model_mapping Demo.linear Demo.exact _ Demo.eighths
                eq_refl) as H.
  change (validation_dataset Demo.exact) with (Some (from_list Demo.stored)) in H.
  cbv beta iota zeta in H.
  destruct (ds_take (from_list Demo.stored) _ _ _) as [[bs s1] g1].
  destruct H as (E & _). rewrite E. reflexivity.
Defined.

(** C7 fails as stated: a task built with the default validation batch
    count has a validation stream, and its evaluation is the empty mapping,
    raising nothing. *)
Lemma empty_evaluation_with_validation_stream :
  exists t,
    Demo.approximation 2 default_validation_batches 2 = inr t
    /\ validation_dataset (base t) <> None
    /\ fst (fst (evaluate_model (base t) Demo.eighths)) = inr [].
Proof.
  eexists. split; [reflexivity|]. split; [cbn; discriminate|].
  vm_compute. reflexivity.
Qed.

(** ** C8 *)




(** ** C4 *)

(** C4, as the code has it.  [train_on_task] never raises an out-of-data
    error.  When the training stream supplies some batches but fewer than
    [training_batches] in the first epoch, training returns normally: the
    history has that one epoch, its record made of the batches that were
    supplied, and no further epoch is run. *)
Theorem training_stops_when_data_runs_out `{B : Backend}
    (t : SequentialTask) (epochs : Z) (callbacks : list Callback) (g : Rng) :
  no_out_of_range (fst (fst (train_on_task t epochs callbacks g)))
  /\ (forall c bs s' g',
         compiled (model t) = Some c ->
         ds_take (training_dataset t) (Z.to_nat (training_batches t))
                 (it_init (training_dataset t)) g = (bs, s', g') ->
         (0 < length bs < Z.to_nat (training_batches t))%nat ->
         0 < epochs ->
         exists tr val_logs,
           map snd tr = bs
           /\ fst (fst (train_on_task t epochs callbacks g))
              = inr [(logs_of c tr ++ val_logs)%list]).
Proof.
  split.
  - rewrite train_on_task_result. cbn [fst]. unfold keras_fit, no_out_of_range.
    destruct (compiled (model t)) as [c|]; [|cbn; discriminate].
    pose proof (fit_epochs_records c (training_dataset t) (training_batches t)
                  (validation_dataset t) (validation_batches t) callbacks
                  (Z.to_nat epochs) 0 (it_init (training_dataset t))
                  (weights (model t), opt_state c) false g) as (_ & _ & Hr).
    destruct (fit_epochs _ _ _ _ _ _ _ _ _ _ _ _) as [[res wo] g1].
    cbn [fst] in *. destruct Hr as [->|[h ->]]; discriminate.
  - intros c bs s' g' Hc Ht Hlen He.
    rewrite train_on_task_result. cbn [fst]. unfold keras_fit. rewrite Hc.
    destruct (Z.to_nat epochs) as [|r] eqn:Er; [lia|].
    cbn [fit_epochs].
    replace (if should_recreate_iterator (training_dataset t) (training_batches t)
             then it_init (training_dataset t)
             else it_init (training_dataset t))
      with (it_init (training_dataset t))
      by now destruct (should_recreate_iterator _ _).
    destruct (train_steps_batches (loss c) (training_dataset t)
                (Z.to_nat (training_batches t)) (it_init (training_dataset t))
                (weights (model t), opt_state c) g Ht)
      as (tr & wo1 & -> & Hm).
    assert (Hout : (length bs <? Z.to_nat (training_batches t))%nat = true)
      by (apply Nat.ltb_lt; lia).
    rewrite Hout.
    destruct tr as [|wb tr]; [cbn in Hm; subst bs; cbn in Hlen; lia|].
    exists (wb :: tr).
    destruct (match validation_dataset t with
              | Some v =>
                  let (lg, g'0) :=
                    test_loop c (fst wo1) v (validation_batches t) g' in
                  (val_prefix lg, g'0)
              | None => ([], g')
              end) as [val_logs g2].
    exists val_logs. split; [exact Hm|].
    cbv zeta. rewrite orb_true_r. reflexivity.
Qed.

Lemma training_stops_witness :
  (exists c, compiled (model Demo.short) = Some c)
  /\ (0 < length Demo.stored < Z.to_nat (training_batches Demo.short))%nat
  /\ 0 < 4
  /\ exists rec, fst (fst (train_on_task Demo.short 4 [] Demo.eighths)) = inr [rec].
Proof.
  split; [eexists; reflexivity|]. split; [cbn; lia|]. split; [lia|].
  destruct (@training_stops_when_data_runs_out Demo.linear Demo.short 4 []
              Demo.eighths) as (_ & H).
  destruct (H _ Demo.stored [] Demo.eighths eq_refl eq_refl)
    as (tr & val_logs & _ & E); [cbn; lia | lia |].
  eexists. exact E.
Defined.

(** C4 fails as stated: the stream has two batches where three are
    expected per epoch, four epochs are asked for, and training returns a
    history of one epoch instead of raising. *)
Lemma short_training_is_truncated :
  length (fst (fst (ds_take (training_dataset Demo.short)
                      (Z.to_nat (training_batches Demo.short))
                      (it_init (training_dataset Demo.short)) Demo.eighths)))
  = 2%nat
  /\ training_batches Demo.short = 3
  /\ fst (fst (train_on_task Demo.short 4 [] Demo.eighths))
     <> inl OutOfRangeError
  /\ exists rec, fst (fst (train_on_task Demo.short 4 [] Demo.eighths))
                 = inr [rec].
Proof.
  split; [reflexivity|]. split; [reflexivity|].
  split; [vm_compute; discriminate|].
  eexists. vm_compute. reflexivity.
Qed.

(** * Further properties of the two classes *)

(** ** The epoch loop, one epoch at a time *)

Section EpochLoop.
Context {B : Backend}.

Variables (c : Compiled) (d : Dataset Batch) (steps : Z).
Variables (vd : option (Dataset Batch)) (vsteps : Z) (cbs : list Callback).

Lemma fit_epochs_step (r : nat) (epoch : Z) (s : it_state d)
    (wo : Weights * OptState) (has_logs : bool) (g : Rng) :
  fit_epochs c d steps vd vsteps cbs (S r) epoch s wo has_logs g
  = let '(tr, s1, wo1, out, g1) :=
      train_steps (loss c) d (Z.to_nat steps)
        (if should_recreate_iterator d steps then it_init d else s) wo g in
    if match tr with [] => negb has_logs | _ => false end
    then (inl ValueError, wo1, g1)
    else
      let (val_logs, g2) := validation_logs c (fst wo1) vd vsteps g1 in
      let epoch_logs := (logs_of c tr ++ val_logs)%list in
      if existsb (fun cb => cb epoch epoch_logs) cbs || out
      then (inr [epoch_logs], wo1, g2)
      else
        let '(res, wo2, g3) :=
          fit_epochs c d steps vd vsteps cbs r (epoch + 1) s1 wo1 true g2 in
        (match res with
         | inl e => inl e
         | inr h => inr (epoch_logs :: h)
         end, wo2, g3).
Proof.
  cbn [fit_epochs]. unfold validation_logs.
  destruct (train_steps _ _ _ _ _ _) as [[[[tr s1] wo1] out] g1].
  destruct tr, has_logs; reflexivity.
Qed.

(** What holds of every record an epoch can make holds of every record of
    the history. *)
Lemma fit_epochs_each (P : Logs -> Prop) :
  (forall tr w g,
      P (logs_of c tr ++ fst (validation_logs c w vd vsteps g))%list) ->
  forall remaining epoch s wo has_logs g,
    Forall P (history_of
                (fst (fst (fit_epochs c d steps vd vsteps cbs remaining
                             epoch s wo has_logs g)))).
Proof.
  intros HP. induction remaining as [|r IH]; intros epoch s wo has_logs g.
  - cbn. constructor.
  - rewrite fit_epochs_step.
    destruct (train_steps _ _ _ _ _ _) as [[[[tr s1] wo1] out] g1].
    destruct (match tr with [] => negb has_logs | _ => false end);
      [cbn; constructor|].
    pose proof (HP tr (fst wo1) g1) as Hrec.
    destruct (validation_logs c (fst wo1) vd vsteps g1) as [val_logs g2].
    cbn [fst] in Hrec. cbv zeta.
    match goal with |- context [if ?b then _ else _] => destruct b end.
    + cbn. constructor; [exact Hrec | constructor].
    + specialize (IH (epoch + 1) s1 wo1 true g2).
      destruct (fit_epochs c d steps vd vsteps cbs r (epoch + 1) s1 wo1 true g2)
        as [[res wo2] g3].
      cbn [fst] in *. destruct res as [e|h]; cbn [history_of] in *.
      * constructor.
      * constructor; assumption.
Qed.

End EpochLoop.

(** ** Construction *)

Lemma stored_batch_size_witness :
  exists t, Demo.approximation 10 0 4 = inr t /\ batch_size (base t) = 0.
Proof.
  eexists. split; [reflexivity|].
  exact (@stored_batch_size_is_default Demo.linear "Task 1" Demo.fresh_model
           Demo.mse 1 [1] Demo.identity Demo.target 10 0 4 default_x_lim None
           _ eq_refl).
Defined.

(** ** Records without validation *)

(** Without a validation stream and without callbacks, the records of a
    history have the loss and the base-loss metric and nothing else. *)
Theorem no_validation_two_entries `{B : Backend}
    (t : SequentialTask) (epochs : Z) (g : Rng) :
  tracks_base_loss t -> validation_dataset t = None ->
  loss_name (model_base_loss t) <> "loss"%string ->
  Forall (fun rec => map fst rec = ["loss"%string; loss_name (model_base_loss t)])
         (history_of (fst (fst (train_on_task t epochs [] g)))).
Proof.
  intros (c & Hc & Hm) Hv _. rewrite train_on_task_result. cbn [fst].
  unfold keras_fit. rewrite Hc, Hv.
  pose proof (@fit_epochs_each B c (training_dataset t) (training_batches t)
                None (validation_batches t) []
                (fun rec => map fst rec
                            = ["loss"%string; loss_name (model_base_loss t)])) as H.
  specialize (fun HP => H HP (Z.to_nat epochs) 0 (it_init (training_dataset t))
                          (weights (model t), opt_state c) false g).
  destruct (fit_epochs _ _ _ _ _ _ _ _ _ _ _ _) as [[res wo'] g'].
  cbn [fst] in *. apply H. intros tr0 w g0. cbn [validation_logs fst].
  rewrite app_nil_r, logs_of_keys, Hm. reflexivity.
Qed.

Lemma no_validation_two_entries_witness :
  tracks_base_loss Demo.short /\ validation_dataset Demo.short = None
  /\ loss_name (model_base_loss Demo.short) <> "loss"%string
  /\ Forall (fun rec => map fst rec = ["loss"; "mean_squared_error"]%string)
            (history_of (fst (fst (train_on_task Demo.short 4 [] Demo.eighths)))).
Proof.
  assert (Ht : tracks_base_loss Demo.short) by apply compile_model_tracks.
  assert (Hn : loss_name (model_base_loss Demo.short) <> "loss"%string)
    by (cbn; discriminate).
  split; [exact Ht|]. split; [reflexivity|]. split; [exact Hn|].
  exact (@no_validation_two_entries Demo.linear Demo.short 4 Demo.eighths
           Ht eq_refl Hn).
Defined.

(** ** Swapping the loss *)

(** Which loss the model is compiled with shows in the ["loss"] entry of an
    evaluation and nowhere else: the other entries, their names and the
    draws the evaluation makes are the same for any two losses. *)
Theorem loss_swap_keeps_metric_values `{B : Backend}
    (t : SequentialTask) (l1 l2 : Loss) (g : Rng) :
  let r1 := evaluate_model (compile_model t l1) g in
  let r2 := evaluate_model (compile_model t l2) g in
  tl (logs_of_result (fst (fst r1))) = tl (logs_of_result (fst (fst r2)))
  /\ map fst (logs_of_result (fst (fst r1)))
     = map fst (logs_of_result (fst (fst r2)))
  /\ snd r1 = snd r2.
Proof.
  cbv zeta. unfold evaluate_model.
  cbn [compile_model with_model validation_dataset validation_batches model].
  destruct (validation_dataset t) as [v|]; [|now cbn].
  unfold keras_evaluate, test_loop. cbn [keras_compile compiled weights].
  destruct (ds_take v _ _ _) as [[l s1] g1]. cbn.
  destruct l; cbn; auto.
Qed.

(** ** Training at the edges *)






(** ** A whole training run of a function-approximation task *)

Section FullRun.
Context {B : Backend}.

Variables (x_lim : Q * Q) (n : nat).
Variables (inp : Tensor -> Tensor) (dat : Tensor -> Q).
Variables (size tb vb : Z).
Hypothesis size_pos : 0 < size.
Hypothesis tb_pos : 0 < tb.
Hypothesis vb_nonneg : 0 <= vb.
Variables (c : Compiled) (cbs : list Callback).
Hypothesis quiet : forall cb e lg, In cb cbs -> cb e lg = false.

Let k := Z.to_nat size.
Let d : Dataset Batch :=
  repeat (batched k (from_generator (data_generator x_lim n inp dat (tb * size)))).
Let v : Dataset Batch :=
  repeat (batched k (from_generator (data_generator x_lim n inp dat (vb * size)))).
Let per_epoch := ((Z.to_nat tb + Z.to_nat vb) * (k * n))%nat.
Let keys := (metric_names c ++ if 0 <? vb then validation_names c else [])%list.

Lemma quiet_callbacks (e : Z) (lg : Logs) :
  existsb (fun cb : Callback => cb e lg) cbs = false.
Proof.
  destruct (existsb (fun cb : Callback => cb e lg) cbs) eqn:E; [|reflexivity].
  apply existsb_exists in E. destruct E as (cb & Hin & Hcb).
  now rewrite (quiet cb e lg Hin) in Hcb.
Qed.

Lemma training_epoch_steps (s : Z * bool) (wo : Weights * OptState) (g : Rng) :
  stream_between_batches (tb * size) k s ->
  exists tr s' wo1,
    train_steps (loss c) d (Z.to_nat tb) s wo g
    = (tr, s', wo1, false, skip g (Z.to_nat tb * (k * n)))
    /\ tr <> [] /\ stream_between_batches (tb * size) k s'.
Proof.
  intros Hs.
  assert (Hk : (0 < k)%nat) by (subst k; lia).
  assert (Hmax : tb * size = Z.of_nat (Z.to_nat tb) * Z.of_nat k)
    by (subst k; lia).
  assert (Ht : (0 < Z.to_nat tb)%nat) by lia.
  destruct (@stream_take x_lim n inp dat (tb * size) k (Z.to_nat tb) Hk Hmax
              (Z.to_nat tb) s g Ht Hs) as (s' & E & Hs').
  destruct (@train_steps_batches B (loss c) d (Z.to_nat tb) s wo g _ _ _ E)
    as (tr & wo1 & Etr & Hm).
  exists tr, s', wo1. split; [|split; [|exact Hs']].
  - rewrite Etr. rewrite length_map, length_seq, Nat.ltb_irrefl. reflexivity.
  - intros ->. cbn in Hm. symmetry in Hm. apply map_eq_nil in Hm.
    destruct (Z.to_nat tb); [lia | discriminate].
Qed.

Lemma validation_epoch_logs (w : Weights) (g : Rng) :
  exists lg,
    validation_logs c w (Some v) vb g = (lg, skip g (Z.to_nat vb * (k * n)))
    /\ map fst lg = if 0 <? vb then validation_names c else [].
Proof.
  unfold validation_logs, test_loop.
  destruct (Z.eq_dec vb 0) as [->|Hne].
  - cbn. rewrite skip_0. eexists. split; reflexivity.
  - assert (Hv : 0 < vb) by lia.
    assert (H : fst (fst (ds_take v (Z.to_nat vb) (it_init v) g))
                = map (fresh_batch x_lim n inp dat k g) (seq 0 (Z.to_nat vb))
                /\ snd (ds_take v (Z.to_nat vb) (it_init v) g)
                   = skip g (Z.to_nat vb * (k * n)))
      by exact (@stream_batches x_lim n inp dat size vb (Z.to_nat vb) g
                  size_pos Hv).
    destruct H as (E1 & E2).
    destruct (ds_take v (Z.to_nat vb) (it_init v) g) as [[l s1] g1].
    cbn [fst snd] in E1, E2. subst g1.
    eexists. split; [reflexivity|].
    apply Z.ltb_lt in Hv. rewrite Hv.
    destruct l as [|b l].
    + exfalso. destruct (Z.to_nat vb) eqn:Ev; [apply Z.ltb_lt in Hv; lia|].
      discriminate.
    + unfold val_prefix, validation_names, metric_names.
      rewrite map_map. cbn [fst]. rewrite <- (logs_of_keys c
        (map (fun b0 => (w, b0)) (b :: l))).
      now rewrite map_map.
Qed.

Lemma fit_epochs_full_run (E : nat) :
  forall (epoch : Z) (s : Z * bool) (wo : Weights * OptState)
         (has_logs : bool) (g : Rng),
    stream_between_batches (tb * size) k s ->
    exists h wo',
      fit_epochs c d tb (Some v) vb cbs E epoch s wo has_logs g
      = (inr h, wo', skip g (E * per_epoch))
      /\ length h = E
      /\ Forall (fun rec => map fst rec = keys) h.
Proof.
  induction E as [|E IH]; intros epoch s wo has_logs g Hs.
  - exists [], wo. cbn. rewrite skip_0. repeat split. constructor.
  - rewrite fit_epochs_step.
    assert (Hno : should_recreate_iterator d tb = false) by reflexivity.
    rewrite Hno.
    destruct (training_epoch_steps wo g Hs) as (tr & s1 & wo1 & Etr & Hne & Hs1).
    rewrite Etr.
    destruct tr as [|wb tr]; [contradiction|]. cbv iota.
    destruct (validation_epoch_logs (fst wo1) (skip g (Z.to_nat tb * (k * n))))
      as (lg & Ev & Hlg).
    rewrite Ev. cbv zeta. rewrite quiet_callbacks. cbn [orb].
    destruct (IH (epoch + 1) s1 wo1 true
                (skip (skip g (Z.to_nat tb * (k * n))) (Z.to_nat vb * (k * n))) Hs1)
      as (h & wo2 & Ef & Hlen & Hkeys).
    rewrite Ef.
    exists ((logs_of c (wb :: tr) ++ lg)%list :: h), wo2.
    split; [|split].
    + rewrite !skip_skip. do 2 f_equal. subst per_epoch.
      cbn [Nat.mul]. rewrite Nat.mul_add_distr_r. lia.
    + cbn. now rewrite Hlen.
    + constructor; [|exact Hkeys].
      rewrite map_app, logs_of_keys, Hlg. reflexivity.
Qed.

End FullRun.

(** A built task whose input transform gives the declared shape, with
    positive training and validation batch counts and no callbacks:
    training for [epochs] epochs raises nothing and returns one record per
    epoch; each record reports the loss, the base-loss metric and their
    validation counterparts; and every epoch draws exactly
    [training_batches + validation_batches] batches' worth of vectors
    from the random source. *)
Theorem full_training_run `{B : Backend}
    (nm : string) (m : Model) (bl : Loss) (n : nat) (shape : list Z)
    (inp : Tensor -> Tensor) (dat : Tensor -> Q)
    (tb vb size : Z) (xl : Q * Q) (yl : option (Q * Q))
    (t : FunctionApproximationTask) (epochs : Z) (g : Rng) :
  FunctionApproximationTask_init nm m bl n shape inp dat tb vb size xl yl
  = inr t ->
  meets_signature shape n inp ->
  0 < tb -> 0 < vb ->
  exists h,
    fst (fst (fa_train_on_task t epochs [] g)) = inr h
    /\ length h = Z.to_nat epochs
    /\ Forall (fun rec =>
                 reports "loss" rec /\ reports (loss_name bl) rec
                 /\ reports "val_loss" rec
                 /\ reports ("val_" ++ loss_name bl) rec) h
    /\ snd (fa_train_on_task t epochs [] g)
       = skip g (Z.to_nat epochs
                 * ((Z.to_nat tb + Z.to_nat vb) * (Z.to_nat size * n))).
Proof.
  intros E _ Htb Hvb.
  assert (Hvb' : 0 <= vb) by lia.
  assert (Hq : forall (cb : Callback) (e : Z) (lg : Logs),
             In cb [] -> cb e lg = false) by (intros cb e lg []).
  pose proof (init_succeeds_positive _ _ _ _ _ _ _ _ _ _ _ _ E) as Hs.
  unfold FunctionApproximationTask_init in E.
  rewrite !create_dataset_positive in E by assumption.
  injection E as <-. unfold fa_train_on_task. cbn [base].
  rewrite train_on_task_result. cbn [fst snd]. unfold keras_fit.
  cbn [SequentialTask_init compile_model with_model model keras_compile
       compiled training_dataset training_batches validation_dataset
       validation_batches weights opt_state].
  assert (H0 : stream_between_batches (tb * size) (Z.to_nat size) (0, true)).
  { unfold stream_between_batches. cbn [fst snd].
    split; [nia|]. split; [exists 0; lia | reflexivity]. }
  match goal with
  | |- context [fit_epochs ?c _ _ _ _ _ _ _ _ ?wo _ _] =>
      destruct (@fit_epochs_full_run B xl n inp dat size tb vb Hs Htb Hvb' c
                  [] Hq (Z.to_nat epochs) 0 (0, true) wo false g H0)
        as (h & wo' & Ef & Hl & Hk)
  end.
  change (it_init (repeat (batched (Z.to_nat size)
            (from_generator (data_generator xl n inp dat (tb * size))))))
    with (0, true).
  unfold Batch in *. rewrite Ef. cbn [fst snd].
  exists h. split; [reflexivity|]. split; [exact Hl|]. split; [|reflexivity].
  eapply Forall_impl; [|exact Hk]. intros rec Hrec. unfold reports.
  rewrite Hrec. unfold metric_names, validation_names, metric_names.
  cbn [metrics map model_base_loss app].
  apply Z.ltb_lt in Hvb. rewrite Hvb. cbn. tauto.
Qed.

Lemma full_training_run_witness :
  meets_signature [1] 1 Demo.identity /\
  exists t,
    Demo.approximation 2 1 2 = inr t
    /\ 0 < 2 /\ 0 < 1
    /\ exists h,
         fst (fst (fa_train_on_task t 3 [] Demo.eighths)) = inr h
         /\ length h = 3%nat
         /\ snd (fa_train_on_task t 3 [] Demo.eighths) = skip Demo.eighths 18.
Proof.
  split; [exact identity_meets_signature|].
  eexists. split; [reflexivity|]. split; [lia|]. split; [lia|].
  destruct (@full_training_run Demo.linear "Task 1" Demo.fresh_model Demo.mse
              1 [1] Demo.identity Demo.target 2 1 2 default_x_lim None _
              3 Demo.eighths eq_refl identity_meets_signature)
    as (h & Eh & Hl & _ & Hg); [lia | lia |].
  exists h. split; [exact Eh|]. split; [exact Hl | exact Hg].
Defined.

(** ** Sample counts that are not a whole number of batches *)

Lemma ds_take_app {A} (d : Dataset A) (a b : nat) :
  forall s g l1 s1 g1,
    ds_take d a s g = (l1, s1, g1) -> length l1 = a ->
    ds_take d (a + b) s g
    = let '(l2, s2, g2) := ds_take d b s1 g1 in ((l1 ++ l2)%list, s2, g2).
Proof.
  induction a as [|a IH]; intros s g l1 s1 g1 E Hl.
  - cbn in E. injection E as <- <- <-. cbn.
    now destruct (ds_take d b s g) as [[l2 s2] g2].
  - cbn [ds_take Nat.add] in *.
    destruct (it_next d s g) as [[[x|] s'] g'].
    + destruct (ds_take d a s' g') as [[l s''] g''] eqn:E'.
      injection E as <- <- <-. cbn in Hl.
      rewrite (IH s' g' l s'' g'' E') by lia.
      now destruct (ds_take d b s'' g'') as [[l2 s2] g2].
    + injection E as <- <- <-. cbn in Hl. lia.
Qed.

Lemma ds_take_S {A} (d : Dataset A) (m : nat) (s : it_state d) (g : Rng) :
  ds_take d (S m) s g
  = match it_next d s g with
    | (Some a, s1, g1) =>
        let '(l, s2, g2) := ds_take d m s1 g1 in (a :: l, s2, g2)
    | (None, s1, g1) => ([], s1, g1)
    end.
Proof. reflexivity. Qed.

(** Name the result of the [ds_take] in the goal and identify it with the
    one equation [E] gives. *)
Ltac take_is_conv E :=
  match goal with
  | |- context [ds_take ?d ?m ?s ?g] =>
      let l := fresh "l" in
      let s' := fresh "s" in
      let g' := fresh "g" in
      let E' := fresh "E" in
      let H := fresh "H" in
      destruct (ds_take d m s g) as [[l s'] g'] eqn:E';
      pose proof (eq_trans (eq_sym E') E) as H;
      injection H as -> -> ->; clear E'
  end.

Ltac take_is E := first [ rewrite E | take_is_conv E ].

Section Remainder.

Variables (x_lim : Q * Q) (n : nat).
Variables (inp : Tensor -> Tensor) (dat : Tensor -> Q).
Variables (k q r : nat) (max : Z).
Hypothesis r_pos : (0 < r)%nat.
Hypothesis r_short : (r < k)%nat.
Hypothesis max_eq : max = Z.of_nat q * Z.of_nat k + Z.of_nat r.

Let G := data_generator x_lim n inp dat max.
Let fresh := fresh_samples x_lim n inp dat.
Let pass := batched k (from_generator G).
Let stream := repeat pass.

(** Asked for more than it has left, the generator gives what is left. *)
Lemma gen_take_rest (c : nat) :
  forall (i : Z) (g : Rng),
    0 <= i <= max -> (Z.to_nat (max - i) <= c)%nat ->
    ds_take (from_generator G) c i g
    = (fresh g (Z.to_nat (max - i)), max, skip g (Z.to_nat (max - i) * n)).
Proof.
  induction c as [|c IH]; intros i g Hi Hc.
  - assert (i = max) by lia. subst i. rewrite Z.sub_diag. cbn.
    now rewrite skip_0.
  - destruct (Z.eq_dec i max) as [->|Hne].
    + unfold G. rewrite gen_take_done by lia. rewrite Z.sub_diag. cbn.
      now rewrite skip_0.
    + cbn [ds_take]. change (it_next (from_generator G)) with (gen_resume G).
      unfold G. rewrite gen_resume_below by lia. fold G.
      rewrite IH by lia.
      replace (Z.to_nat (max - i)) with (S (Z.to_nat (max - (i + 1)))) by lia.
      unfold fresh. rewrite fresh_samples_S, skip_skip. reflexivity.
Qed.

Lemma batch_full (i : Z) (g : Rng) :
  0 <= i -> i + Z.of_nat k <= max ->
  batch_next (from_generator G) k i g
  = (Some (fresh g k), i + Z.of_nat k, skip g (k * n)).
Proof.
  intros Hi Hle. unfold batch_next, G, fresh.
  rewrite gen_take_fresh by assumption.
  pose proof (fresh_samples_length x_lim n inp dat g k) as Hl.
  destruct (fresh_samples x_lim n inp dat g k); [cbn in Hl; lia | reflexivity].
Qed.

Lemma batch_short (g : Rng) :
  batch_next (from_generator G) k (Z.of_nat q * Z.of_nat k) g
  = (Some (fresh g r), max, skip g (r * n)).
Proof.
  unfold batch_next. rewrite gen_take_rest by nia.
  replace (Z.to_nat (max - Z.of_nat q * Z.of_nat k)) with r by lia.
  pose proof (fresh_samples_length x_lim n inp dat g r) as Hl.
  fold fresh in Hl. destruct (fresh g r); [cbn in Hl; lia | reflexivity].
Qed.

Lemma batch_over (g : Rng) :
  batch_next (from_generator G) k max g = (None, max, g).
Proof. unfold batch_next, G. rewrite gen_take_done by lia. reflexivity. Qed.

(** From [j] full batches into a pass, the rest of the pass. *)
Lemma rest_of_pass (m : nat) :
  forall (j : nat) (f : bool) (g : Rng),
    (j + m = q)%nat ->
    exists bl,
      ds_take stream (S m) (Z.of_nat j * Z.of_nat k, f) g
      = (bl, (max, false), skip g ((m * k + r) * n))
      /\ map (@length Sample) bl = pass_sizes k m r.
Proof.
  induction m as [|m IH]; intros j f g Hj.
  - assert (j = q) by lia. subst j.
    cbn [ds_take stream repeat it_next repeat_next].
    change (it_next pass) with (batch_next (from_generator G) k).
    rewrite batch_short. eexists. split; [reflexivity|].
    cbn. unfold fresh. now rewrite fresh_samples_length.
  - rewrite ds_take_S. cbn [stream repeat it_next repeat_next].
    change (it_next pass) with (batch_next (from_generator G) k).
    rewrite batch_full by nia.
    destruct (IH (S j) false (skip g (k * n))) as (bl & E & Hs); [lia|].
    replace (Z.of_nat j * Z.of_nat k + Z.of_nat k)
      with (Z.of_nat (S j) * Z.of_nat k) by lia.
    change (ds_take (repeat pass)) with (ds_take stream).
    exists (fresh g k :: bl). split.
    + take_is E. rewrite skip_skip. do 2 f_equal. lia.
    + cbn [map]. rewrite Hs. unfold fresh.
      rewrite fresh_samples_length. reflexivity.
Qed.

Let pass_boundary := stream_pass_boundary max.

(** A whole pass, from the start of the stream or from the end of the
    pass before. *)
Lemma whole_pass (s : Z * bool) (g : Rng) :
  pass_boundary s ->
  exists bl,
    ds_take stream (S q) s g = (bl, (max, false), skip g (Z.to_nat max * n))
    /\ map (@length Sample) bl = pass_sizes k q r.
Proof.
  assert (Hmax : Z.to_nat max = (q * k + r)%nat) by lia.
  unfold pass_boundary, stream_pass_boundary. intros [Hs0 | Hs0]; subst s.
  - destruct (@rest_of_pass q 0%nat true g) as (bl & E & Hs); [lia|].
    exists bl. split; [|exact Hs]. take_is E. rewrite Hmax. reflexivity.
  - destruct (Nat.eq_dec q 0) as [Eq | Hq].
    + pose proof (batch_short g) as Hb. rewrite Eq in Hb.
      cbn [Z.of_nat Z.mul] in Hb.
      rewrite ds_take_S. cbn [stream repeat it_next repeat_next].
      change (it_next pass) with (batch_next (from_generator G) k).
      rewrite batch_over. change (it_init pass) with 0.
      rewrite Hb, Hmax, Eq. cbn [ds_take].
      eexists. split; [reflexivity|].
      cbn. unfold fresh. now rewrite fresh_samples_length.
    + destruct (@rest_of_pass (Nat.pred q) 1%nat false (skip g (k * n)))
        as (bl & E & Hs); [lia|].
      assert (Hq' : q = S (Nat.pred q)) by lia.
      exists (fresh g k :: bl). split.
      * rewrite ds_take_S. cbn [stream repeat it_next repeat_next].
        change (it_next pass) with (batch_next (from_generator G) k).
        rewrite batch_over. change (it_init pass) with 0.
        rewrite batch_full by nia.
        replace (0 + Z.of_nat k) with (Z.of_nat 1 * Z.of_nat k) by lia.
        change (ds_take (repeat pass)) with (ds_take stream).
        rewrite Hq' at 1. take_is E.
        rewrite skip_skip, Hmax. do 2 f_equal. lia.
      * cbn [map]. rewrite Hs. unfold fresh. rewrite fresh_samples_length.
        unfold pass_sizes. rewrite Hq' at 2. reflexivity.
Qed.

Lemma whole_passes (passes : nat) :
  forall (s : Z * bool) (g : Rng),
    pass_boundary s ->
    exists bl s',
      ds_take stream (passes * S q) s g
      = (bl, s', skip g (passes * (Z.to_nat max * n)))
      /\ pass_boundary s'
      /\ map (@length Sample) bl
         = concat (List.repeat (pass_sizes k q r) passes).
Proof.
  induction passes as [|p IH]; intros s g Hs.
  - exists [], s. cbn. rewrite skip_0. auto.
  - destruct (whole_pass g Hs) as (bl1 & E1 & H1).
    destruct (IH (max, false) (skip g (Z.to_nat max * n))) as (bl2 & s2 & E2 & Hs2 & H2);
      [now right|].
    assert (Hl : length bl1 = S q).
    { rewrite <- (length_map (@length Sample)), H1. unfold pass_sizes.
      rewrite length_app, repeat_length. cbn. lia. }
    exists (bl1 ++ bl2)%list, s2. split; [|split; [exact Hs2|]].
    + cbn [Nat.mul].
      rewrite (@ds_take_app _ stream (S q) (p * S q)%nat s g _ _ _ E1 Hl).
      take_is E2. rewrite skip_skip. reflexivity.
    + rewrite map_app, H1, H2. reflexivity.
Qed.

End Remainder.

(** [create_dataset] keeps the remainder.  When [max_samples] is [q] whole
    batches and [r] samples more, with [0 < r < batch_size], and the input
    transform gives the declared shape, every pass of the stream is [q]
    full batches followed by one batch of [r] samples; the next pass
    starts with a full batch again, and over any number of passes every
    sample the generator emits reaches a batch. *)
Theorem create_dataset_keeps_remainder
    (shape : list Z) (x_lim : Q * Q) (n : nat)
    (inp : Tensor -> Tensor) (dat : Tensor -> Q)
    (size max_samples : Z) (q r passes : nat) (g : Rng) :
  meets_signature shape n inp ->
  0 < size -> max_samples = Z.of_nat q * size + Z.of_nat r ->
  (0 < r)%nat -> Z.of_nat r < size ->
  exists d,
    create_dataset shape x_lim n inp dat size max_samples = inr d
    /\ map (@length Sample)
         (fst (fst (ds_take d (passes * S q) (it_init d) g)))
       = concat (List.repeat (pass_sizes (Z.to_nat size) q r) passes)
    /\ snd (ds_take d (passes * S q) (it_init d) g)
       = skip g (passes * (Z.to_nat max_samples * n)).
Proof.
  intros _ Hs Hmax Hr Hrs. eexists.
  split; [now apply create_dataset_positive|].
  assert (Hr' : (r < Z.to_nat size)%nat) by lia.
  assert (Hmax' : max_samples
                  = Z.of_nat q * Z.of_nat (Z.to_nat size) + Z.of_nat r) by lia.
  destruct (@whole_passes x_lim n inp dat (Z.to_nat size) q r max_samples
              Hr Hr' Hmax' passes (0, true) g (or_introl eq_refl))
    as (bl & s' & E & _ & H).
  change (it_init (repeat (batched (Z.to_nat size)
            (from_generator (data_generator x_lim n inp dat max_samples)))))
    with (0, true).
  unfold Batch in *. rewrite E. cbn [fst snd]. split; [exact H | reflexivity].
Qed.

Lemma create_dataset_keeps_remainder_witness :
  meets_signature [1] 1 Demo.identity
  /\ 0 < 2 /\ 5 = Z.of_nat 2 * 2 + Z.of_nat 1 /\ (0 < 1)%nat /\ Z.of_nat 1 < 2
  /\ exists d,
       create_dataset [1] default_x_lim 1 Demo.identity Demo.target 2 5 = inr d
       /\ map (@length Sample)
            (fst (fst (ds_take d (2 * 3) (it_init d) Demo.eighths)))
          = [2; 2; 1; 2; 2; 1]%nat.
Proof.
  split; [exact identity_meets_signature|].
  split; [lia|]. split; [reflexivity|]. split; [lia|]. split; [lia|].
  destruct (@create_dataset_keeps_remainder [1] default_x_lim 1 Demo.identity
              Demo.target 2 5 2 1 2 Demo.eighths identity_meets_signature)
    as (d & Ed & Hl & _); [lia | reflexivity | lia | lia |].
  exists d. split; [exact Ed | exact Hl].
Defined.

(** ** Evaluating a function-approximation task *)

(** With a positive validation batch count and an input transform that
    gives the declared shape, evaluating a built task raises nothing,
    returns a mapping that reports the loss and the base-loss metric,
    hands the task back unchanged, and draws exactly [validation_batches]
    batches' worth of vectors from the random source. *)
Theorem built_task_evaluation `{B : Backend}
    (nm : string) (m : Model) (bl : Loss) (n : nat) (shape : list Z)
    (inp : Tensor -> Tensor) (dat : Tensor -> Q)
    (tb vb size : Z) (xl : Q * Q) (yl : option (Q * Q))
    (t : FunctionApproximationTask) (g : Rng) :
  FunctionApproximationTask_init nm m bl n shape inp dat tb vb size xl yl
  = inr t ->
  meets_signature shape n inp ->
  0 < vb ->
  exists lg,
    fa_evaluate_model t g
    = (inr lg, t, skip g (Z.to_nat vb * (Z.to_nat size * n)))
    /\ reports "loss" lg /\ reports (loss_name bl) lg.
Proof.
  intros E _ Hvb.
  pose proof (init_succeeds_positive _ _ _ _ _ _ _ _ _ _ _ _ E) as Hs.
  unfold FunctionApproximationTask_init in E.
  rewrite !create_dataset_positive in E by assumption.
  injection E as <-. unfold fa_evaluate_model, evaluate_model.
  cbn [base SequentialTask_init compile_model with_model validation_dataset
       validation_batches model].
  unfold keras_evaluate, test_loop. cbn [keras_compile compiled weights].
  pose proof (@stream_batches xl n inp dat size vb (Z.to_nat vb) g Hs Hvb) as H.
  cbv zeta in H. destruct H as (E1 & E2).
  unfold Batch in *.
  destruct (ds_take _ (Z.to_nat vb) _ g) as [[l s1] g1].
  cbn [fst snd] in E1, E2. subst g1.
  destruct l as [|b l].
  { exfalso. destruct (Z.to_nat vb) eqn:Ev; [lia | discriminate]. }
  eexists. split; [reflexivity|].
  unfold reports. rewrite logs_of_keys. cbn. tauto.
Qed.

Lemma built_task_evaluation_witness :
  meets_signature [1] 1 Demo.identity /\
  exists t,
    Demo.approximation 2 1 2 = inr t /\ 0 < 1
    /\ exists lg,
         fa_evaluate_model t Demo.eighths = (inr lg, t, skip Demo.eighths 2)
         /\ reports "loss" lg /\ reports "mean_squared_error" lg.
Proof.
  split; [exact identity_meets_signature|].
  eexists. split; [reflexivity|]. split; [lia|].
  apply (@built_task_evaluation Demo.linear "Task 1" Demo.fresh_model Demo.mse
           1 [1] Demo.identity Demo.target 2 1 2 default_x_lim None _
           Demo.eighths eq_refl identity_meets_signature).
  lia.
Defined.

(** ** Recompiling after use *)

(** What [compile_model] installs does not depend on what the task has
    been through: after any earlier compilations, training runs and
    evaluations, it leaves the same loss, the same tracked base loss and a
    newly made optimizer, as it would on the task as first given; the
    parameters are the ones the calls before it left. *)
Theorem recompiling_forgets_history `{B : Backend}
    (t : SequentialTask) (l0 l : Loss) (calls : list Call) (g : Rng) :
  let t' := snd (fst (run_calls calls (compile_model t l0) g)) in
  compiled (model (compile_model t' l)) = compiled (model (compile_model t l))
  /\ weights (model (compile_model t' l)) = weights (model t').
Proof.
  pose proof (run_calls_invariant calls g (compile_model_tracks t l0)) as H.
  destruct (run_calls calls (compile_model t l0) g) as [[recs t'] g'].
  destruct H as (_ & Hs & _). cbn [fst snd].
  assert (Hb : model_base_loss t' = model_base_loss t) by apply Hs.
  cbn. rewrite Hb. split; reflexivity.
Qed.

(** ** Streams that leave the random source alone *)

Section Deterministic.
Context {B : Backend}.






(** An epoch loop that has an epoch to run raises the "empty logs" error
    or returns a history that is not empty. *)
Lemma fit_epochs_outcome (c : Compiled) (d : Dataset Batch) (steps : Z)
    (vd : option (Dataset Batch)) (vsteps : Z) (cbs : list Callback)
    (r : nat) (epoch : Z) (s : it_state d) (wo : Weights * OptState)
    (has_logs : bool) (g : Rng) :
  let res := fst (fst (fit_epochs c d steps vd vsteps cbs (S r) epoch s wo
                         has_logs g)) in
  res = inl ValueError \/ exists rec h, res = inr (rec :: h).
Proof.
  rewrite fit_epochs_step.
  destruct (train_steps _ _ _ _ _ _) as [[[[tr s1] wo1] out] g1].
  destruct (match tr with [] => negb has_logs | _ => false end);
    [now left|].
  destruct (validation_logs c (fst wo1) vd vsteps g1) as [val_logs g2].
  cbv zeta.
  match goal with |- context [if ?b then _ else _] => destruct b end;
    [right; cbn; eauto|].
  pose proof (fit_epochs_records c d steps vd vsteps cbs r (epoch + 1) s1 wo1
                true g2) as (_ & _ & Hr).
  destruct (fit_epochs c d steps vd vsteps cbs r (epoch + 1) s1 wo1 true g2)
    as [[res wo2] g3].
  cbn [fst] in *. destruct Hr as [-> | [h ->]]; [now left | right; eauto].
Qed.

Lemma evaluate_model_logs (t : SequentialTask) (c : Compiled)
    (v : Dataset Batch) (g : Rng) :
  compiled (model t) = Some c -> validation_dataset t = Some v ->
  logs_of_result (fst (fst (evaluate_model t g)))
  = match fst (fst (ds_take v (Z.to_nat (validation_batches t)) (it_init v) g))
    with
    | [] => []
    | bs => logs_of c (map (fun b => (weights (model t), b)) bs)
    end.
Proof.
  intros Hc Hv. unfold evaluate_model. rewrite Hv.
  unfold keras_evaluate, test_loop. rewrite Hc.
  destruct (ds_take v _ _ _) as [[bs s1] g1]. cbn. now destruct bs.
Qed.

End Deterministic.

(** ** C1 *)

(** C1, as the code has it.  Whatever loss [compile_model] is called
    with, at construction or later, the model is compiled with the task's
    base loss as its tracked metric, and it stays so through every later
    call of the three methods.  Every record of every later training
    history reports the base-loss metric, and a training run of one epoch
    or more either raises the "empty logs" error or has such a record.  An
    evaluation reports it exactly when there is a validation stream and at
    least one batch of it was run; otherwise its mapping is empty. *)
Theorem base_loss_always_reported `{B : Backend}
    (t : SequentialTask) (loss_fn : Loss) (calls : list Call) (g : Rng) :
  let t0 := compile_model t loss_fn in
  let '(recs, t', _) := run_calls calls t0 g in
  (exists c, compiled (model t0) = Some c
             /\ metrics c = [model_base_loss t] /\ loss c = loss_fn)
  /\ tracks_base_loss t'
  /\ Forall (fun rec => rec = [] \/ reports (loss_name (model_base_loss t)) rec)
            recs
  /\ (forall epochs callbacks g1,
         let r := fst (fst (train_on_task t' epochs callbacks g1)) in
         Forall (reports (loss_name (model_base_loss t))) (history_of r)
         /\ (0 < epochs -> r = inl ValueError \/ history_of r <> []))
  /\ (forall g1,
         reports (loss_name (model_base_loss t))
                 (logs_of_result (fst (fst (evaluate_model t' g1))))
         <-> exists v,
               validation_dataset t' = Some v
               /\ fst (fst (ds_take v (Z.to_nat (validation_batches t'))
                              (it_init v) g1)) <> []).
Proof.
  intros t0.
  pose proof (run_calls_invariant calls g (compile_model_tracks t loss_fn)) as H.
  fold t0 in H. destruct (run_calls calls t0 g) as [[recs t'] g'].
  destruct H as (Ht' & Hs & Hr).
  assert (Hb : model_base_loss t' = model_base_loss t) by apply Hs.
  split; [eexists; cbn; repeat split|].
  split; [assumption|]. split; [assumption|]. split.
  - intros epochs callbacks g1 r. split.
    + rewrite <- Hb. now apply train_on_task_reports.
    + intros He. subst r. destruct Ht' as (c & Hc & _).
      rewrite train_on_task_result. cbn [fst]. unfold keras_fit. rewrite Hc.
      destruct (Z.to_nat epochs) as [|k] eqn:Ek; [lia|].
      pose proof (fit_epochs_outcome c (training_dataset t')
                    (training_batches t') (validation_dataset t')
                    (validation_batches t') callbacks k 0
                    (it_init (training_dataset t'))
                    (weights (model t'), opt_state c) false g1) as Ho.
      destruct (fit_epochs _ _ _ _ _ _ _ _ _ _ _ _) as [[res wo] g2].
      cbn [fst] in *. destruct Ho as [-> | (rec & h & ->)];
        [now left | right; cbn; discriminate].
  - intros g1. destruct Ht' as (c & Hc & Hm). rewrite <- Hb.
    destruct (validation_dataset t') as [v|] eqn:Hv.
    + rewrite (evaluate_model_logs _ g1 Hc Hv). split.
      * intros Hrep. exists v. split; [reflexivity|]. intros Hnil.
        rewrite Hnil in Hrep. exact Hrep.
      * intros (v0 & Hv0 & Hne). injection Hv0 as <-.
        destruct (fst (fst (ds_take v _ _ g1))) as [|b bs]; [contradiction|].
        unfold reports. rewrite logs_of_keys, Hm. cbn. auto.
    + unfold evaluate_model. rewrite Hv. cbn. split; [intros []|].
      intros (v0 & Hv0 & _). discriminate.
Qed.

(** C1 fails as stated: compiled with another loss, a task without a
    validation stream evaluates to the empty mapping, a record in which the
    base-loss metric is not reported. *)
Lemma evaluation_without_batches_reports_nothing :
  let t := compile_model Demo.short Demo.regularized in
  tracks_base_loss t
  /\ fst (fst (evaluate_model t Demo.eighths)) = inr []
  /\ ~ reports (loss_name (model_base_loss Demo.short))
               (logs_of_result (fst (fst (evaluate_model t Demo.eighths)))).
Proof.
  cbv zeta. split; [apply compile_model_tracks|]. split; [reflexivity|].
  cbn. intros [].
Qed.

(** ** C10 *)



